(** * chainermn.communicators._base

    A shallow embedding of [chainermn/communicators/_base.py]: the message
    descriptor [_MessageType], the point-to-point primitives
    [CommunicatorBase.send] and [CommunicatorBase.recv], [split], and the
    lazily initialised [NodeAwareCommunicatorBase].

    Python exceptions are values of [exn]; a computation that can raise
    returns a [result].  Code that talks to [mpi_comm] runs in the monad
    [Py S], which threads the state [S] of the outside world and keeps that
    state when an exception is raised, as a Python call does. *)

From Stdlib Require Import String Ascii Strings.Byte.
From Stdlib Require Import List Arith Lia ZArith Bool.
From ExtLib Require Import Structures.Monad.
Import ListNotations.
Import MonadNotation.
Local Open Scope string_scope.
Local Open Scope list_scope.
Local Open Scope nat_scope.
Local Open Scope monad_scope.

Set Implicit Arguments.

(** ** Exceptions and results *)

Inductive exn : Type :=
| ValueError (msg : string)
| AttributeError (attr : string)
| TypeError (msg : string)
| IndexError
| AssertionError
| UnpicklingError
| RuntimeError (msg : string)
| MPIError (msg : string)
| Blocked                       (* the call waits for a message for ever *)
| Unspecified (what : string).  (* an outcome the model does not determine *)

Inductive result (A : Type) : Type :=
| Ok (a : A)
| Raise (e : exn).
Arguments Ok {A} a.
Arguments Raise {A} e.

#[global] Instance Monad_result : Monad result :=
  {| ret := fun _ a => Ok a;
     bind := fun _ _ c k => match c with Ok a => k a | Raise e => Raise e end |}.

(** [for x in xs: f(x)] collecting the values, as a list comprehension does;
    the first exception ends the loop. *)
Fixpoint comprehension {A B : Type} (f : A -> result B) (xs : list A)
  : result (list B) :=
  match xs with
  | [] => Ok []
  | x :: xs' => y <- f x ;; ys <- comprehension f xs' ;; ret (y :: ys)
  end.

(** State passing with exceptions.  The state reached when the exception is
    raised is kept. *)
Definition Py (S A : Type) : Type := S -> result A * S.

#[global] Instance Monad_Py (S : Type) : Monad (Py S) :=
  {| ret := fun _ a s => (Ok a, s);
     bind := fun _ _ c k s =>
               match c s with
               | (Ok a, s') => k a s'
               | (Raise e, s') => (Raise e, s')
               end |}.

Definition raise {S A : Type} (e : exn) : Py S A := fun s => (Raise e, s).

Definition lift {S A : Type} (r : result A) : Py S A := fun s => (r, s).

(** [assert c] *)
Definition py_assert {S : Type} (c : bool) : Py S unit :=
  if c then ret tt else raise AssertionError.

(** ** numpy arrays *)

Inductive dtype : Type := float16 | float32 | float64 | int32 | int64 | uint8.

Definition itemsize (d : dtype) : nat :=
  match d with
  | float16 => 2 | float32 => 4 | float64 => 8
  | int32 => 4 | int64 => 8 | uint8 => 1
  end.

(** A [numpy.ndarray] in C order: its element type, its shape and the bytes
    of its elements. *)
Record ndarray : Type := mk_ndarray {
  arr_dtype : dtype;
  arr_shape : list nat;
  arr_data : list byte
}.

(** The number of elements a shape holds. *)
Definition size_of_shape (shape : list nat) : nat := fold_right Nat.mul 1 shape.

(** [a.ndim] is the length of [a.shape]. *)
Definition arr_ndim (a : ndarray) : nat := length (arr_shape a).

Definition arr_size (a : ndarray) : nat := size_of_shape (arr_shape a).

(** The sizes numpy can hold are signed 64-bit integers.  A shape is
    addressable with elements of [item] bytes when the product of its
    dimensions other than 0, counted in bytes, is such a size: numpy builds no
    array of another shape. *)
Definition addressable (item : nat) (shape : list nat) : Prop :=
  (Z.of_nat item
   * fold_right Z.mul 1 (map (fun d => Z.max 1 (Z.of_nat d)) shape)
   < 2 ^ 63)%Z.

(** The buffer of an array holds [itemsize] bytes per element, and its shape
    is one numpy can hold. *)
Definition wf_ndarray (a : ndarray) : Prop :=
  length (arr_data a) = itemsize (arr_dtype a) * arr_size a /\
  addressable (itemsize (arr_dtype a)) (arr_shape a).

(** The scalars [numpy.prod] returns: a numpy int64, or a float64 of
    integral value. *)
Inductive np_scalar : Type :=
| np_int (n : Z)
| np_float (n : nat).

(** The value of an integer in signed 64-bit arithmetic. *)
Definition int64_wrap (z : Z) : Z := ((z + 2 ^ 63) mod 2 ^ 64 - 2 ^ 63)%Z.

(** [numpy.prod(shape)] on a tuple of Python ints.  The tuple is converted to
    an int64 array and its product is taken in int64 arithmetic, which wraps
    around; the empty tuple becomes an empty float64 array, whose product is
    the float [1.0].  (The dimensions are those of a shape, each below
    [2 ^ 63].) *)
Definition numpy_prod (shape : list nat) : np_scalar :=
  match shape with
  | [] => np_float 1
  | _ :: _ => np_int (int64_wrap (fold_right Z.mul 1%Z (map Z.of_nat shape)))
  end.

(** [buf.reshape(shape)]: the same bytes under a shape of the same size. *)
Definition reshape (buf : ndarray) (shape : list nat) : result ndarray :=
  if size_of_shape shape =? arr_size buf
  then Ok (mk_ndarray (arr_dtype buf) shape (arr_data buf))
  else Raise (ValueError "cannot reshape array").

(** ** Python objects a caller can hand to [send] *)

#[warnings="-register-all"] Inductive pyobj : Type :=
| PyArray (a : ndarray)           (* numpy.ndarray *)
| PyInt (n : Z)
| PyNone
| PyStr (s : string)
| PyTuple (xs : list pyobj)
| PyList (xs : list pyobj)
| PyGenerator (xs : list pyobj).  (* iterable, without len() *)

(** [isinstance(obj, numpy.ndarray)] *)
Definition isinstance_ndarray (obj : pyobj) : bool :=
  match obj with PyArray _ => true | _ => false end.

(** [isinstance(obj, collections.Iterable)] *)
Definition isinstance_Iterable (obj : pyobj) : bool :=
  match obj with
  | PyArray _ | PyStr _ | PyTuple _ | PyList _ | PyGenerator _ => true
  | PyInt _ | PyNone => false
  end.

(** [len(obj)] *)
Definition py_len (obj : pyobj) : result nat :=
  match obj with
  | PyArray a =>
      match arr_shape a with
      | [] => Raise (TypeError "len() of unsized object")
      | n :: _ => Ok n
      end
  | PyStr s => Ok (String.length s)
  | PyTuple xs | PyList xs => Ok (length xs)
  | PyInt _ | PyNone | PyGenerator _ => Raise (TypeError "object has no len()")
  end.

(** Splits a list into consecutive chunks of [k] elements. *)
Fixpoint chunks {A : Type} (n k : nat) (l : list A) : list (list A) :=
  match n with
  | O => []
  | S n' => firstn k l :: chunks n' k (skipn k l)
  end.

(** The values [for x in obj] binds [x] to. *)
Definition py_iter (obj : pyobj) : result (list pyobj) :=
  match obj with
  | PyArray a =>
      match arr_shape a with
      | [] => Raise (TypeError "iteration over a 0-d array")
      | n :: rest =>
          Ok (map (fun bs => PyArray (mk_ndarray (arr_dtype a) rest bs))
                (chunks n (itemsize (arr_dtype a) * size_of_shape rest)
                   (arr_data a)))
      end
  | PyStr s =>
      Ok (map (fun c => PyStr (String c EmptyString)) (list_ascii_of_string s))
  | PyTuple xs | PyList xs | PyGenerator xs => Ok xs
  | PyInt _ | PyNone => Raise (TypeError "object is not iterable")
  end.

(** [x.ndim] and [x.shape]: only arrays have these attributes. *)
Definition getattr_ndim (x : pyobj) : result nat :=
  match x with
  | PyArray a => Ok (arr_ndim a)
  | _ => Raise (AttributeError "ndim")
  end.

Definition getattr_shape (x : pyobj) : result (list nat) :=
  match x with
  | PyArray a => Ok (arr_shape a)
  | _ => Raise (AttributeError "shape")
  end.

(** ** The message descriptor *)

Record _MessageType : Type := mk_MessageType {
  is_tuple : bool;
  narr : nat;
  ndims : list nat;
  shapes : list (list nat)
}.

(** [_MessageType.__init__(self, obj)] *)
Definition MessageType_init (obj : pyobj) : result _MessageType :=
  if isinstance_ndarray obj then
    d <- getattr_ndim obj ;;
    s <- getattr_shape obj ;;
    ret (mk_MessageType false 1 [d] [s])
  else if isinstance_Iterable obj then
    n <- py_len obj ;;
    xs <- py_iter obj ;;
    ds <- comprehension getattr_ndim xs ;;
    ss <- comprehension getattr_shape xs ;;
    ret (mk_MessageType true n ds ss)
  else
    Raise (ValueError "Message object should be numpy array or tuple.").

(** ** The sending side of [mpi_comm] *)

(** The transport operations [send] invokes on [mpi_comm], in the order made:
    [mpi_comm.send(obj, dest, tag)] pickles a small object (the header
    channel); [mpi_comm.Send(buf, dest, tag)] moves the bytes of a buffer
    (the bulk channel).  The sending side is that of a transport whose calls
    return: an exception of mpi4py (a rank or tag it refuses, a broken link)
    would leave [send] at that call, after the calls made before it, and is
    not part of the model; the properties of [send] speak of the calls it
    makes when they return. *)
Inductive call : Type :=
| mpi_send (obj : _MessageType) (dest tag : Z)
| mpi_Send (buf : list byte) (dest tag : Z).

Definition mpi_comm_send (obj : _MessageType) (dest tag : Z)
  : Py (list call) unit :=
  fun log => (Ok tt, log ++ [mpi_send obj dest tag]).

Definition mpi_comm_Send (buf : list byte) (dest tag : Z)
  : Py (list call) unit :=
  fun log => (Ok tt, log ++ [mpi_Send buf dest tag]).

(** Modelled from the spec: [_memory_utility.array_to_buffer_object], which
    is not part of this file, obtains "a contiguous transferable buffer view
    of the array's bytes".  An object that is not an array has no such view;
    [send] never passes one, since building the descriptor read [ndim] and
    [shape] of every element before. *)
Definition array_to_buffer_object (array : pyobj) : result (list byte) :=
  match array with
  | PyArray a => Ok (arr_data a)
  | _ => Raise (TypeError "array_to_buffer_object")
  end.

(** [for x in xs: body(x)] *)
Fixpoint for_each {S A : Type} (xs : list A) (body : A -> Py S unit)
  : Py S unit :=
  match xs with
  | [] => ret tt
  | x :: xs' => body x ;; for_each xs' body
  end.

(** [CommunicatorBase.send(self, obj, dest, tag)].  The call of
    [chainer.utils.experimental] only issues a warning.  Every array of this
    model is a [numpy.ndarray], for which [chainer.cuda.get_array_module]
    answers [numpy]: the stream is not synchronised. *)
Definition send (obj : pyobj) (dest tag : Z) : Py (list call) unit :=
  msgtype <- lift (MessageType_init obj) ;;
  mpi_comm_send msgtype dest tag ;;
  let obj := if negb (is_tuple msgtype) then PyList [obj] else obj in
  arrays <- lift (py_iter obj) ;;
  for_each arrays (fun array =>
    buf <- lift (array_to_buffer_object array) ;;
    mpi_comm_Send buf dest tag).

Definition vec3 : ndarray :=
  mk_ndarray float32 [3]
    [x00; x00; x80; x3f;  x00; x00; x00; x40;  x00; x00; x40; x40].

Definition mat22 : ndarray :=
  mk_ndarray float32 [2; 2]
    [x00; x00; x80; x3f;  x00; x00; x00; x00;
     x00; x00; x00; x00;  x00; x00; x80; x3f].

(** ** The receiving side of [mpi_comm] *)

(** What travels: a pickled descriptor, or the bytes of a buffer. *)
Inductive body : Type :=
| Pickled (obj : _MessageType)
| Buffer (bs : list byte).

Record message : Type := mk_message {
  msg_source : Z;
  msg_tag : Z;
  msg_body : body
}.

(** The transport operations [recv] invokes, in the order made;
    [mpi_Recv] records the buffer as it is handed to [mpi_comm.Recv]. *)
Inductive rcall : Type :=
| mpi_recv (source tag : Z)
| mpi_Recv (buf : list byte) (source tag : Z).

(** The world of a receiving process: the messages that have arrived for it
    and are not yet received, in arrival order; the bytes lying in the memory
    the allocator hands out, and the address it hands out next; the transport
    calls made so far. *)
Record world : Type := mk_world {
  inbox : list message;
  ram : nat -> byte;
  brk : nat;
  calls : list rcall
}.

Definition matches (source tag : Z) (m : message) : bool :=
  (msg_source m =? source)%Z && (msg_tag m =? tag)%Z.

(** The first message from [source] with [tag], and the inbox without it:
    messages of one sender with one tag are received in the order sent. *)
Fixpoint take_first (source tag : Z) (q : list message)
  : option (body * list message) :=
  match q with
  | [] => None
  | m :: q' =>
      if matches source tag m then Some (msg_body m, q')
      else match take_first source tag q' with
           | Some (b, r) => Some (b, m :: r)
           | None => None
           end
  end.

(** [mpi_comm.recv(source=source, tag=tag)]: waits for a message and
    unpickles it.  The bytes of a pickle are not modelled: a buffer met on the
    header channel does not unpickle. *)
Definition mpi_comm_recv (source tag : Z) : Py world _MessageType :=
  fun w =>
    let log := calls w ++ [mpi_recv source tag] in
    match take_first source tag (inbox w) with
    | None => (Raise Blocked, mk_world (inbox w) (ram w) (brk w) log)
    | Some (Pickled obj, q) => (Ok obj, mk_world q (ram w) (brk w) log)
    | Some (Buffer _, q) => (Raise UnpicklingError, mk_world q (ram w) (brk w) log)
    end.

(** [mpi_comm.Recv(buf, source=source, tag=tag)]: waits for a message and
    stores its bytes at the start of [buf]; what [buf] held beyond them
    stays.  A message longer than [buf] is an MPI truncation error.  The
    array returned is [buf] after the call.  When the message is a pickled
    object, MPI hands the bytes of the pickle to [Recv]; these bytes are not
    modelled, so the outcome of that call is left [Unspecified]. *)
Definition mpi_comm_Recv (buf : ndarray) (source tag : Z) : Py world ndarray :=
  fun w =>
    let log := calls w ++ [mpi_Recv (arr_data buf) source tag] in
    match take_first source tag (inbox w) with
    | None => (Raise Blocked, mk_world (inbox w) (ram w) (brk w) log)
    | Some (Buffer bs, q) =>
        if length bs <=? length (arr_data buf)
        then (Ok (mk_ndarray (arr_dtype buf) (arr_shape buf)
                    (bs ++ skipn (length bs) (arr_data buf))),
              mk_world q (ram w) (brk w) log)
        else (Raise (MPIError "MPI_ERR_TRUNCATE"), mk_world q (ram w) (brk w) log)
    | Some (Pickled _, q) =>
        (Raise (Unspecified "pickled object on the bulk channel"),
         mk_world q (ram w) (brk w) log)
    end.

(** [numpy.empty(n, dtype=numpy.float32)]: a fresh one-dimensional array of
    [n] elements over memory that is not initialised: it holds what the
    memory held.  A count that is not an integer is refused, and so are a
    negative count and a count whose bytes are no signed 64-bit size. *)
Definition numpy_empty (n : np_scalar) : Py world ndarray :=
  match n with
  | np_float _ =>
      raise (TypeError "'numpy.float64' object cannot be interpreted as an integer")
  | np_int k =>
      if (k <? 0)%Z then
        raise (ValueError "negative dimensions are not allowed")
      else if (2 ^ 63 <=? Z.of_nat (itemsize float32) * k)%Z then
        raise (ValueError "array is too big")
      else
        fun w =>
          let nbytes := itemsize float32 * Z.to_nat k in
          (Ok (mk_ndarray float32 [Z.to_nat k] (map (ram w) (seq (brk w) nbytes))),
           mk_world (inbox w) (ram w) (brk w + nbytes) (calls w))
  end.

(** [xs[i]] *)
Definition getitem {A : Type} (xs : list A) (i : nat) : result A :=
  match nth_error xs i with
  | Some x => Ok x
  | None => Raise IndexError
  end.

(** The three statements both branches of [recv] run for one shape:
    [buf = numpy.empty(numpy.prod(shape), dtype=numpy.float32)],
    [self.mpi_comm.Recv(buf, source=source, tag=tag)], [buf.reshape(shape)]. *)
Definition recv_buffer (shape : list nat) (source tag : Z) : Py world ndarray :=
  buf <- numpy_empty (numpy_prod shape) ;;
  buf <- mpi_comm_Recv buf source tag ;;
  lift (reshape buf shape).

(** [for shape in msgtype.shapes: ...; msg.append(buf.reshape(shape))] *)
Fixpoint recv_loop (shapes : list (list nat)) (source tag : Z)
    (msg : list ndarray) : Py world (list ndarray) :=
  match shapes with
  | [] => ret msg
  | shape :: rest =>
      a <- recv_buffer shape source tag ;;
      recv_loop rest source tag (msg ++ [a])
  end.

(** [CommunicatorBase.recv(self, source, tag)], after the warning of
    [chainer.utils.experimental]. *)
Definition recv (source tag : Z) : Py world pyobj :=
  msgtype <- mpi_comm_recv source tag ;;
  if is_tuple msgtype then
    msg <- recv_loop (shapes msgtype) source tag [] ;;
    ret (PyTuple (map PyArray msg))
  else
    py_assert (length (shapes msgtype) =? 1) ;;
    shape <- lift (getitem (shapes msgtype) 0) ;;
    a <- recv_buffer shape source tag ;;
    ret (PyArray a).

(** The network: the calls process [src] made on the sending side arrive at
    process [me] as messages from [src], in the order made. *)
Definition deliver (src : Z) (outbox : list call) (me : Z) : list message :=
  flat_map (fun c =>
    match c with
    | mpi_send obj dest tag =>
        if (dest =? me)%Z then [mk_message src tag (Pickled obj)] else []
    | mpi_Send buf dest tag =>
        if (dest =? me)%Z then [mk_message src tag (Buffer buf)] else []
    end) outbox.

(** Process 0 sends [obj] to process 1 with [tag]; process 1, whose memory
    holds [mem], receives from 0 with [tag]. *)
Definition send_then_recv (obj : pyobj) (tag : Z) (mem : nat -> byte)
  : result pyobj :=
  fst (recv 0 tag (mk_world (deliver 0 (snd (send obj 1 tag [])) 1) mem 0 [])).

Definition scalar0d : ndarray := mk_ndarray float32 [] [x00; x00; x80; x3f].

(** ** Communicator objects *)

(** What [_communication_utility.init_comms] returns when it returns:
    [comms[0]], [comms[1]], and [comms[2]] when the sequence has a third
    entry. *)
Record comms_t (MPIComm NcclComm : Type) : Type := mk_comms {
  comms0 : MPIComm;
  comms1 : MPIComm;
  comms2 : option NcclComm
}.

(** The collaborators of a communicator that live outside this file:
    the process group handles of mpi4py with [mpi_comm.rank],
    [mpi_comm.size] and the partition [mpi_comm.Split(color, key)] computes;
    the device collective handles and the flag [nccl._available];
    [_communication_utility.init_ranks(mpi_comm)], which returns the five
    numbers [my_ranks[0]] to [my_ranks[4]]; and
    [_communication_utility.init_comms(mpi_comm, intra_rank, intra_size,
    inter_rank, use_nccl=use_nccl)]. *)
Class Collaborators : Type := {
  MPIComm : Type;
  NcclComm : Type;
  comm_rank : MPIComm -> nat;
  comm_size : MPIComm -> nat;
  comm_Split : MPIComm -> Z -> Z -> MPIComm;
  nccl_available : bool;
  init_ranks : MPIComm -> nat * nat * nat * nat * nat;
  init_comms : MPIComm -> nat -> nat -> nat -> bool
               -> result (comms_t MPIComm NcclComm)
}.

Section Communicators.

Context {X : Collaborators}.

(** The calls a communicator makes on these collaborators, in the order
    made. *)
Inductive ext_call : Type :=
| call_Split (c : MPIComm) (color key : Z)
| call_init_ranks (c : MPIComm)
| call_init_comms (c : MPIComm) (intra_rank intra_size inter_rank : nat)
    (use_nccl : bool).

Definition trace : Type := list ext_call.

Definition log {A : Type} (c : ext_call) (a : A) : Py trace A :=
  fun t => (Ok a, t ++ [c]).

(** The attributes of a [CommunicatorBase]. *)
Record CommunicatorBase : Type := mk_CommunicatorBase {
  mpi_comm : MPIComm
}.

(** The attributes of a [NodeAwareCommunicatorBase].  An attribute bound to
    [None] in Python is [None] here; [intra_nccl_comm] is only created when
    [use_nccl] holds, so the outer option tells whether it exists. *)
Record NodeAwareCommunicatorBase : Type := mk_NodeAware {
  super : CommunicatorBase;
  use_nccl : bool;
  intra_rank : nat;
  intra_size : nat;
  inter_rank : nat;
  inter_size : nat;
  inter_mpi_comm : option MPIComm;
  intra_mpi_comm : option MPIComm;
  intra_nccl_comm : option (option NcclComm)
}.

(** A communicator object: its class and its attributes. *)
Inductive communicator : Type :=
| Base (self : CommunicatorBase)
| NodeAware (self : NodeAwareCommunicatorBase).

Definition comm_of (self : communicator) : MPIComm :=
  match self with
  | Base b => mpi_comm b
  | NodeAware n => mpi_comm (super n)
  end.

(** The properties [rank] and [size]. *)
Definition rank (self : communicator) : nat := comm_rank (comm_of self).
Definition size (self : communicator) : nat := comm_size (comm_of self).

(** [CommunicatorBase.__init__(self, mpi_comm)] *)
Definition CommunicatorBase_init (c : MPIComm) : CommunicatorBase :=
  mk_CommunicatorBase c.

(** The error of a construction that asks for NCCL when it is not there. *)
Definition NCCL_is_not_available : exn :=
  RuntimeError "NCCL is not available. Please confirm that NCCL can be found by dynamic linkers, and ChainerMN is installed without --no-nccl flag.".

(** [NodeAwareCommunicatorBase.__init__(self, mpi_comm, use_nccl)], with
    [_init_ranks] in its place. *)
Definition NodeAware_init (c : MPIComm) (use_nccl : bool)
  : Py trace NodeAwareCommunicatorBase :=
  let super := CommunicatorBase_init c in
  if use_nccl && negb nccl_available then
    raise NCCL_is_not_available
  else
    (* self._init_ranks() *)
    my_ranks <- log (call_init_ranks (mpi_comm super)) (init_ranks (mpi_comm super)) ;;
    let '(r0, r1, r2, r3, r4) := my_ranks in
    py_assert (r0 =? comm_rank (mpi_comm super)) ;;
    ret (mk_NodeAware super use_nccl r1 r2 r3 r4 None None
           (if use_nccl then Some None else None)).

(** The class of an object, and the call [cls(mpi_comm=c)]: a call that
    passes [mpi_comm] alone. *)
Inductive class : Type :=
| CommunicatorBase_class
| NodeAwareCommunicatorBase_class.

Definition class_of (self : communicator) : class :=
  match self with
  | Base _ => CommunicatorBase_class
  | NodeAware _ => NodeAwareCommunicatorBase_class
  end.

Definition construct (cls : class) (c : MPIComm) : Py trace communicator :=
  match cls with
  | CommunicatorBase_class => ret (Base (CommunicatorBase_init c))
  | NodeAwareCommunicatorBase_class =>
      raise (TypeError "__init__() missing 1 required positional argument: 'use_nccl'")
  end.

(** [CommunicatorBase.split(self, color, key)], inherited by
    [NodeAwareCommunicatorBase]. *)
Definition split (self : communicator) (color key : Z) : Py trace communicator :=
  c <- log (call_Split (comm_of self) color key)
         (comm_Split (comm_of self) color key) ;;
  construct (class_of self) c.

(** Reading [self.intra_nccl_comm]. *)
Definition get_intra_nccl_comm (self : NodeAwareCommunicatorBase)
  : result (option NcclComm) :=
  match intra_nccl_comm self with
  | Some v => Ok v
  | None => Raise (AttributeError "intra_nccl_comm")
  end.

Definition is_not_None {A : Type} (v : option A) : bool :=
  match v with Some _ => true | None => false end.

Definition set_intra_mpi_comm (v : MPIComm) (self : NodeAwareCommunicatorBase) :=
  mk_NodeAware (super self) (use_nccl self) (intra_rank self) (intra_size self)
    (inter_rank self) (inter_size self) (inter_mpi_comm self) (Some v)
    (intra_nccl_comm self).

Definition set_inter_mpi_comm (v : MPIComm) (self : NodeAwareCommunicatorBase) :=
  mk_NodeAware (super self) (use_nccl self) (intra_rank self) (intra_size self)
    (inter_rank self) (inter_size self) (Some v) (intra_mpi_comm self)
    (intra_nccl_comm self).

Definition set_intra_nccl_comm (v : NcclComm) (self : NodeAwareCommunicatorBase) :=
  mk_NodeAware (super self) (use_nccl self) (intra_rank self) (intra_size self)
    (inter_rank self) (inter_size self) (inter_mpi_comm self)
    (intra_mpi_comm self) (Some (Some v)).

(** A method that updates [self]: the state is the object and the trace. *)
Definition method (A : Type) : Type := Py (NodeAwareCommunicatorBase * trace) A.

Definition self_ : method NodeAwareCommunicatorBase :=
  fun s => (Ok (fst s), s).

Definition assign (f : NodeAwareCommunicatorBase -> NodeAwareCommunicatorBase)
  : method unit :=
  fun s => (Ok tt, (f (fst s), snd s)).

Definition external {A : Type} (c : ext_call) (r : result A) : method A :=
  fun s => (r, (fst s, snd s ++ [c])).

(** [NodeAwareCommunicatorBase._init_comms(self)] *)
Definition _init_comms : method unit :=
  self <- self_ ;;
  if is_not_None (inter_mpi_comm self) then
    py_assert (is_not_None (intra_mpi_comm self)) ;;
    (if use_nccl self then
       v <- lift (get_intra_nccl_comm self) ;;
       py_assert (is_not_None v)
     else ret tt) ;;
    ret tt
  else
    comms <- external
               (call_init_comms (mpi_comm (super self)) (intra_rank self)
                  (intra_size self) (inter_rank self) (use_nccl self))
               (init_comms (mpi_comm (super self)) (intra_rank self)
                  (intra_size self) (inter_rank self) (use_nccl self)) ;;
    assign (set_intra_mpi_comm (comms0 comms)) ;;
    assign (set_inter_mpi_comm (comms1 comms)) ;;
    if use_nccl self then
      match comms2 comms with
      | Some v => assign (set_intra_nccl_comm v)
      | None => raise IndexError
      end
    else ret tt.

End Communicators.

(** ** Vocabulary of the properties *)

(** The containers of the model: tuples, lists and strings. *)
Definition is_container (obj : pyobj) : bool :=
  match obj with
  | PyStr _ | PyTuple _ | PyList _ => true
  | _ => false
  end.

(** The arrays of an accepted payload, in the order of the descriptor: the
    array itself, or the elements of the container. *)
Definition arrays_of (obj : pyobj) (arrays : list ndarray) : Prop :=
  match obj with
  | PyArray a => arrays = [a]
  | _ => py_iter obj = Ok (map PyArray arrays)
  end.

(** The bodies of the messages from [source] with [tag] waiting in an inbox,
    in arrival order. *)
Definition pending (source tag : Z) (q : list message) : list body :=
  map msg_body (filter (matches source tag) q).

(** What a buffer holds after [bs] was received into it. *)
Definition filled (alloc bs : list byte) : list byte :=
  bs ++ skipn (length bs) alloc.

(** The float32 arrays [recv] builds from the declared shapes, the buffers it
    allocated and the bytes received into them. *)
Fixpoint rebuilt (shapes : list (list nat)) (allocs bufs : list (list byte))
  : list ndarray :=
  match shapes, allocs, bufs with
  | shape :: shapes', alloc :: allocs', bs :: bufs' =>
      mk_ndarray float32 shape (filled alloc bs) :: rebuilt shapes' allocs' bufs'
  | _, _, _ => []
  end.

(** A buffer taken from memory that was not initialised: it holds the bytes
    that lie in [mem] from some address on. *)
Definition uninitialised (mem : nat -> byte) (alloc : list byte) : Prop :=
  exists addr, alloc = map mem (seq addr (length alloc)).

(** A declared shape [recv] can rebuild an array for: it has at least one
    dimension and its float32 elements are addressable. *)
Definition receivable (shape : list nat) : Prop :=
  shape <> [] /\ addressable (itemsize float32) shape.

(** The value [recv] returns for a descriptor and the arrays rebuilt. *)
Definition returned (m : _MessageType) (arrays : list ndarray) (v : pyobj) : Prop :=
  if is_tuple m then v = PyTuple (map PyArray arrays)
  else exists a, arrays = [a] /\ v = PyArray a.

(** ** Sample worlds *)

(** Process 1 after process 0 sent it the pair [(vec3, mat22)] with tag 7;
    its free memory is filled with [xff]. *)
Definition pair_world : world :=
  mk_world (deliver 0 (snd (send (PyTuple [PyArray vec3; PyArray mat22]) 1 7 [])) 1)
    (fun _ => xff) 0 [].

(** A descriptor that declares one array of shape [(2,)], followed by a bulk
    message of four bytes only. *)
Definition short_world : world :=
  mk_world
    [mk_message 0 7 (Pickled (mk_MessageType false 1 [1] [[2]]));
     mk_message 0 7 (Buffer [x00; x00; x80; x3f])]
    (fun _ => xff) 0 [].

(** A descriptor that says it is no tuple and declares two arrays. *)
Definition two_in_single_world : world :=
  mk_world
    [mk_message 0 7 (Pickled (mk_MessageType false 2 [1; 1] [[1]; [1]]));
     mk_message 0 7 (Buffer [x00; x00; x80; x3f]);
     mk_message 0 7 (Buffer [x00; x00; x80; x3f])]
    (fun _ => xff) 0 [].

(** Process 1 after process 0 sent it the single array [vec3] with tag 7. *)
Definition single_world : world :=
  mk_world (deliver 0 (snd (send (PyArray vec3) 1 7 [])) 1) (fun _ => xff) 0 [].

(** Process 1 after process 0 sent it the array without dimension
    [scalar0d] with tag 7. *)
Definition scalar_world : world :=
  mk_world (deliver 0 (snd (send (PyArray scalar0d) 1 7 [])) 1) (fun _ => xff) 0 [].

(** A sample of collaborators: handles are numbers, every process group
    reports rank 0 of 4, two processes per node, and [init_comms] builds
    three fresh handles. *)
Definition sample_collaborators (available : bool) : Collaborators :=
  {| MPIComm := nat;
     NcclComm := nat;
     comm_rank := fun _ => 0;
     comm_size := fun _ => 4;
     comm_Split := fun c _ _ => S c;
     nccl_available := available;
     init_ranks := fun _ => (0, 0, 2, 0, 2);
     init_comms := fun c _ _ _ use_nccl =>
       Ok (mk_comms (c + 10) (c + 20) (if use_nccl then Some (c + 30) else None)) |}.

(** The array [recv] makes of the bytes of [a]: the element type is not
    part of the descriptor, the buffer is always float32. *)
Definition as_float32 (a : ndarray) : ndarray :=
  mk_ndarray float32 (arr_shape a) (arr_data a).

(** A call of [mpi_comm.Recv] with the given source and tag. *)
Definition bulk_from (source tag : Z) (c : rcall) : Prop :=
  exists buf, c = mpi_Recv buf source tag.

(** Process 1 after process 0 sent it the list [[vec3, mat22]] with tag 7. *)
Definition list_world : world :=
  mk_world (deliver 0 (snd (send (PyList [PyArray vec3; PyArray mat22]) 1 7 [])) 1)
    (fun _ => xff) 0 [].

(** Two int32 values and two float64 values. *)
Definition ints2 : ndarray :=
  mk_ndarray int32 [2] [x01; x00; x00; x00;  x02; x00; x00; x00].

Definition doubles2 : ndarray :=
  mk_ndarray float64 [2]
    [x00; x00; x00; x00; x00; x00; xf0; x3f;
     x00; x00; x00; x00; x00; x00; x00; x40].

Definition ints_world : world :=
  mk_world (deliver 0 (snd (send (PyArray ints2) 1 7 [])) 1) (fun _ => xff) 0 [].

Definition doubles_world : world :=
  mk_world (deliver 0 (snd (send (PyArray doubles2) 1 7 [])) 1) (fun _ => xff) 0 [].

(** Process 1 after process 0 sent it the empty string with tag 7. *)
Definition empty_world : world :=
  mk_world (deliver 0 (snd (send (PyStr "") 1 7 [])) 1) (fun _ => xff) 0 [].

(** A descriptor of a tuple whose second shape has no dimension, and the two
    buffers sent after it. *)
Definition scalar_in_tuple_world : world :=
  mk_world
    [mk_message 0 7 (Pickled (mk_MessageType true 2 [1; 0] [[1]; []]));
     mk_message 0 7 (Buffer [x00; x00; x80; x3f]);
     mk_message 0 7 (Buffer [x00; x00; x00; x40])]
    (fun _ => xff) 0 [].

(** Collaborators like [sample_collaborators true], but [init_comms] answers
    with [answer]. *)
Definition collaborators_answering (answer : result (comms_t nat nat))
  : Collaborators :=
  {| MPIComm := nat;
     NcclComm := nat;
     comm_rank := fun _ => 0;
     comm_size := fun _ => 4;
     comm_Split := fun c _ _ => S c;
     nccl_available := true;
     init_ranks := fun _ => (0, 0, 2, 0, 2);
     init_comms := fun _ _ _ _ _ => answer |}.

(** * Properties *)

Example descriptor_of_pair :
  MessageType_init
    (PyTuple [PyArray (mk_ndarray float32 [3] (repeat x00 12));
              PyArray (mk_ndarray float32 [2; 2] (repeat x00 16))])
  = Ok (mk_MessageType true 2 [1; 2] [[3]; [2; 2]]).
Proof. reflexivity. Qed.

Example send_pair :
  send (PyTuple [PyArray vec3; PyArray mat22]) 1 0 []
  = (Ok tt,
     [mpi_send (mk_MessageType true 2 [1; 2] [[3]; [2; 2]]) 1 0;
      mpi_Send (arr_data vec3) 1 0;
      mpi_Send (arr_data mat22) 1 0]).
Proof. reflexivity. Qed.

Example send_int : send (PyInt 5) 1 0 [] =
  (Raise (ValueError "Message object should be numpy array or tuple."), []).
Proof. reflexivity. Qed.

Example send_str : send (PyStr "ab") 1 0 [] = (Raise (AttributeError "ndim"), []).
Proof. reflexivity. Qed.

Example send_empty_list : send (PyList []) 1 0 [] =
  (Ok tt, [mpi_send (mk_MessageType true 0 [] []) 1 0]).
Proof. reflexivity. Qed.

Example pair_round_trip :
  send_then_recv (PyTuple [PyArray vec3; PyArray mat22]) 7 (fun _ => xff)
  = Ok (PyTuple [PyArray vec3; PyArray mat22]).
Proof. reflexivity. Qed.

Example list_comes_back_as_tuple :
  send_then_recv (PyList [PyArray vec3]) 7 (fun _ => xff)
  = Ok (PyTuple [PyArray vec3]).
Proof. reflexivity. Qed.

Example scalar_descriptor :
  MessageType_init (PyArray scalar0d) = Ok (mk_MessageType false 1 [0] [[]]).
Proof. reflexivity. Qed.

(** ** List comprehensions over the elements of a payload *)

Lemma comprehension_length {A B : Type} (f : A -> result B) xs ys :
  comprehension f xs = Ok ys -> length ys = length xs.
Proof.
  revert ys. induction xs as [|x xs IH]; intros ys H; simpl in H.
  - injection H as <-. reflexivity.
  - destruct (f x) as [y|e]; [|discriminate].
    destruct (comprehension f xs) as [ys'|e]; [|discriminate].
    injection H as <-. simpl. f_equal. apply IH. reflexivity.
Qed.

(** When every [x.ndim] can be read, the elements are arrays. *)
Lemma comprehension_ndim_arrays xs ds :
  comprehension getattr_ndim xs = Ok ds ->
  exists arrays, xs = map PyArray arrays /\ ds = map arr_ndim arrays.
Proof.
  revert ds. induction xs as [|x xs IH]; intros ds H; simpl in H.
  - injection H as <-. exists []. split; reflexivity.
  - destruct x as [a| | | | | |]; simpl in H; try discriminate.
    destruct (comprehension getattr_ndim xs) as [ds'|e]; [|discriminate].
    injection H as <-.
    destruct (IH ds' eq_refl) as (arrays & -> & ->).
    exists (a :: arrays). split; reflexivity.
Qed.

Lemma comprehension_shape_arrays arrays :
  comprehension getattr_shape (map PyArray arrays) = Ok (map arr_shape arrays).
Proof.
  induction arrays as [|a arrays IH]; simpl; [reflexivity|].
  rewrite IH. reflexivity.
Qed.


(** The comprehension over [ndim] raises no other exception. *)
Lemma comprehension_ndim_error xs e :
  comprehension getattr_ndim xs = Raise e -> e = AttributeError "ndim".
Proof.
  induction xs as [|x xs IH]; simpl; [discriminate|].
  destruct x as [a| | | | | |]; simpl; try (intros H; injection H as <-; reflexivity).
  destruct (comprehension getattr_ndim xs) as [ds|e']; [discriminate|].
  intros H. injection H as <-. apply IH. reflexivity.
Qed.

Lemma length_list_ascii_of_string s :
  length (list_ascii_of_string s) = String.length s.
Proof. induction s as [|c s IH]; simpl; congruence. Qed.

(** The elements of a container are as many as its [len]. *)
Lemma py_iter_length obj xs n :
  isinstance_ndarray obj = false ->
  py_iter obj = Ok xs -> py_len obj = Ok n -> length xs = n.
Proof.
  destruct obj as [a|z| |s|l|l|l]; simpl; intros Hk Hi Hl; try discriminate.
  - injection Hi as <-. injection Hl as <-.
    rewrite length_map. apply length_list_ascii_of_string.
  - injection Hi as <-. injection Hl as <-. reflexivity.
  - injection Hi as <-. injection Hl as <-. reflexivity.
Qed.

(** What a successful construction of the descriptor tells about the
    payload: it is an array, or its elements are arrays. *)
Lemma MessageType_init_Ok obj m :
  MessageType_init obj = Ok m ->
  (exists a, obj = PyArray a /\ m = mk_MessageType false 1 [arr_ndim a] [arr_shape a])
  \/ (exists arrays,
        isinstance_ndarray obj = false /\
        py_iter obj = Ok (map PyArray arrays) /\
        py_len obj = Ok (length arrays) /\
        m = mk_MessageType true (length arrays)
              (map arr_ndim arrays) (map arr_shape arrays)).
Proof.
  unfold MessageType_init. intros H.
  destruct obj as [a|z| |s|l|l|l]; simpl in H; try discriminate.
  - left. exists a. injection H as <-. split; reflexivity.
  - right.
    destruct (comprehension getattr_ndim _) as [ds|e] eqn:Hd; [|discriminate].
    destruct (comprehension_ndim_arrays _ Hd) as (arrays & Hxs & ->).
    rewrite Hxs, comprehension_shape_arrays in H. injection H as <-.
    assert (Hlen : String.length s = length arrays).
    { rewrite <- length_list_ascii_of_string.
      rewrite <- (length_map (fun c => PyStr (String c EmptyString))), Hxs.
      apply length_map. }
    exists arrays. simpl. rewrite Hxs, Hlen. repeat split; reflexivity.
  - right.
    destruct (comprehension getattr_ndim l) as [ds|e] eqn:Hd; [|discriminate].
    destruct (comprehension_ndim_arrays _ Hd) as (arrays & -> & ->).
    rewrite comprehension_shape_arrays in H. injection H as <-.
    exists arrays. simpl. rewrite length_map. repeat split; reflexivity.
  - right.
    destruct (comprehension getattr_ndim l) as [ds|e] eqn:Hd; [|discriminate].
    destruct (comprehension_ndim_arrays _ Hd) as (arrays & -> & ->).
    rewrite comprehension_shape_arrays in H. injection H as <-.
    exists arrays. simpl. rewrite length_map. repeat split; reflexivity.
Qed.

(** ** The message descriptor *)

(** C3, as the code has it: a descriptor that [_MessageType] builds has
    [len(ndims) == len(shapes) == narr], and every shape is as long as the
    matching entry of [ndims].  For an array payload [is_tuple] is false and
    [narr] is 1; for any other payload [is_tuple] is true and [narr] is
    [len(obj)], which is 0 for an empty container and at least 1 otherwise. *)
Theorem descriptor_invariant obj m :
  MessageType_init obj = Ok m ->
  length (ndims m) = narr m /\
  length (shapes m) = narr m /\
  Forall2 (fun d shape => length shape = d) (ndims m) (shapes m) /\
  (isinstance_ndarray obj = true -> is_tuple m = false /\ narr m = 1) /\
  (isinstance_ndarray obj = false ->
     is_tuple m = true /\ py_len obj = Ok (narr m) /\
     (narr m = 0 <-> py_iter obj = Ok [])).
Proof.
  intros H.
  destruct (MessageType_init_Ok _ H) as [(a & -> & ->) | (arrays & Hk & Hi & Hl & ->)];
    simpl.
  - repeat split; try discriminate.
    repeat constructor.
  - rewrite !length_map. repeat split; trivial.
    all: try congruence.
    + clear. induction arrays; simpl; constructor; auto.
    + rewrite Hi. destruct arrays; [reflexivity | discriminate].
    + rewrite Hi. destruct arrays; [reflexivity | discriminate].
Qed.

Lemma descriptor_invariant_witness :
  MessageType_init (PyTuple [PyArray vec3; PyArray mat22])
  = Ok (mk_MessageType true 2 [1; 2] [[3]; [2; 2]]) /\
  Forall2 (fun d shape => length shape = d) [1; 2] [[3]; [2; 2]].
Proof.
  split; [reflexivity|].
  apply (descriptor_invariant (PyTuple [PyArray vec3; PyArray mat22])
           (m := mk_MessageType true 2 [1; 2] [[3]; [2; 2]])).
  reflexivity.
Defined.

(** C3, as stated, asks [arrayCount >= 1] of every descriptor built.  The
    empty tuple is accepted and its descriptor declares no array. *)
Lemma descriptor_of_empty_tuple :
  exists m, MessageType_init (PyTuple []) = Ok m /\ ~ (narr m >= 1).
Proof.
  exists (mk_MessageType true 0 [] []). split; [reflexivity|].
  simpl. lia.
Qed.

(** C5: a payload that is neither an array nor iterable makes [send] raise the
    [ValueError] of the descriptor, and no call on [mpi_comm] is made. *)
Theorem send_rejects_other_payloads obj dest tag log :
  isinstance_ndarray obj = false ->
  isinstance_Iterable obj = false ->
  MessageType_init obj
  = Raise (ValueError "Message object should be numpy array or tuple.") /\
  send obj dest tag log
  = (Raise (ValueError "Message object should be numpy array or tuple."), log).
Proof.
  intros Ha Hi.
  assert (H : MessageType_init obj
              = Raise (ValueError "Message object should be numpy array or tuple.")).
  { unfold MessageType_init. rewrite Ha, Hi. reflexivity. }
  split; [exact H|].
  unfold send, lift. simpl. rewrite H. reflexivity.
Qed.

Lemma send_rejects_other_payloads_witness :
  send (PyInt 5) 1 0 []
  = (Raise (ValueError "Message object should be numpy array or tuple."), []).
Proof.
  apply (send_rejects_other_payloads (PyInt 5) 1 0 []); reflexivity.
Defined.



(** A container without elements is accepted: its header is sent and no bulk
    transfer follows. *)
Lemma send_empty_container obj dest tag log :
  is_container obj = true ->
  py_iter obj = Ok [] ->
  send obj dest tag log = (Ok tt, log ++ [mpi_send (mk_MessageType true 0 [] []) dest tag]).
Proof.
  intros Hc Hi.
  destruct obj as [a|z| |s|l|l|l]; try discriminate; simpl in Hi.
  - destruct s; [reflexivity | discriminate].
  - injection Hi as ->. reflexivity.
  - injection Hi as ->. reflexivity.
Qed.

(** ** The order of the transfers of [send] *)

Lemma send_loop (body : pyobj -> Py (list call) unit) arrays dest tag :
  (forall a log, body (PyArray a) log = (Ok tt, log ++ [mpi_Send (arr_data a) dest tag])) ->
  forall log,
    for_each (map PyArray arrays) body log
    = (Ok tt, log ++ map (fun a => mpi_Send (arr_data a) dest tag) arrays).
Proof.
  intros Hbody. induction arrays as [|a arrays IH]; intros log; simpl.
  - rewrite app_nil_r. reflexivity.
  - rewrite Hbody, IH, <- app_assoc. reflexivity.
Qed.

(** C8: for a payload whose descriptor [m] is built, [send] first hands [m]
    to the header channel, then hands the buffer of each array to the bulk
    channel, one call per array in the order of the descriptor (a single array
    counts as a sequence of one), all to the same [dest] and [tag]. *)
Theorem send_header_then_bulk obj dest tag log m :
  MessageType_init obj = Ok m ->
  exists arrays,
    arrays_of obj arrays /\
    map arr_shape arrays = shapes m /\
    length arrays = narr m /\
    send obj dest tag log
    = (Ok tt,
       log ++ mpi_send m dest tag
           :: map (fun a => mpi_Send (arr_data a) dest tag) arrays).
Proof.
  intros H.
  destruct (MessageType_init_Ok _ H) as [(a & -> & ->) | (arrays & Hk & Hi & Hl & ->)].
  - exists [a]. repeat split.
    unfold send, lift, mpi_comm_send, mpi_comm_Send. simpl.
    rewrite <- app_assoc. reflexivity.
  - exists arrays. repeat split.
    + destruct obj; try discriminate; exact Hi.
    + unfold send. cbn. rewrite H. cbn. rewrite Hi.
      rewrite (send_loop _ arrays dest tag) by reflexivity.
      rewrite <- app_assoc. reflexivity.
Qed.

Lemma send_header_then_bulk_witness :
  exists arrays,
    arrays_of (PyTuple [PyArray vec3; PyArray mat22]) arrays /\
    map arr_shape arrays = [[3]; [2; 2]] /\
    length arrays = 2 /\
    send (PyTuple [PyArray vec3; PyArray mat22]) 1 7 []
    = (Ok tt,
       mpi_send (mk_MessageType true 2 [1; 2] [[3]; [2; 2]]) 1 7
         :: map (fun a => mpi_Send (arr_data a) 1 7) arrays).
Proof.
  apply (send_header_then_bulk (PyTuple [PyArray vec3; PyArray mat22]) 1 7 []
           (m := mk_MessageType true 2 [1; 2] [[3]; [2; 2]])).
  reflexivity.
Defined.

(** ** The receiving side *)

Lemma take_first_pending source tag q b bs :
  pending source tag q = b :: bs ->
  exists q', take_first source tag q = Some (b, q') /\ pending source tag q' = bs.
Proof.
  unfold pending. induction q as [|m q IH]; simpl; [discriminate|].
  destruct (matches source tag m) eqn:Hm; simpl; intros H.
  - injection H as <- <-. exists q. split; reflexivity.
  - destruct (IH H) as (q' & -> & Hq'). exists (m :: q'). split; [reflexivity|].
    simpl. rewrite Hm. exact Hq'.
Qed.

Lemma take_first_nothing source tag q :
  pending source tag q = [] -> take_first source tag q = None.
Proof.
  unfold pending. induction q as [|m q IH]; simpl; [reflexivity|].
  destruct (matches source tag m); simpl; [discriminate|].
  intros H. rewrite (IH H). reflexivity.
Qed.

Lemma filled_length alloc bs :
  length bs <= length alloc -> length (filled alloc bs) = length alloc.
Proof.
  intros H. unfold filled. rewrite length_app, length_skipn. lia.
Qed.

(** A message as long as the buffer replaces all of it. *)
Lemma filled_exact alloc bs : length bs = length alloc -> filled alloc bs = bs.
Proof.
  intros H. unfold filled. rewrite skipn_all2 by lia. apply app_nil_r.
Qed.

(** ** Sizes within signed 64-bit arithmetic *)

Lemma size_of_shape_Z shape :
  Z.of_nat (size_of_shape shape) = fold_right Z.mul 1%Z (map Z.of_nat shape).
Proof.
  induction shape as [|d ds IH]; [reflexivity|].
  cbn [size_of_shape fold_right map]. fold (size_of_shape ds).
  rewrite Nat2Z.inj_mul, IH. reflexivity.
Qed.

Lemma size_below_nonzero_product shape :
  (1 <= fold_right Z.mul 1 (map (fun d => Z.max 1 (Z.of_nat d)) shape))%Z /\
  (Z.of_nat (size_of_shape shape)
   <= fold_right Z.mul 1 (map (fun d => Z.max 1 (Z.of_nat d)) shape))%Z.
Proof.
  induction shape as [|d ds [IH1 IH2]]; [split; simpl; lia|].
  cbn [size_of_shape fold_right map]. fold (size_of_shape ds).
  rewrite Nat2Z.inj_mul.
  pose proof (Nat2Z.is_nonneg d). pose proof (Nat2Z.is_nonneg (size_of_shape ds)).
  split; nia.
Qed.

(** The bytes of an addressable shape are a signed 64-bit size. *)
Lemma addressable_bytes item shape :
  addressable item shape ->
  (Z.of_nat item * Z.of_nat (size_of_shape shape) < 2 ^ 63)%Z.
Proof.
  unfold addressable. intros H.
  destruct (size_below_nonzero_product shape) as [H1 H2].
  pose proof (Nat2Z.is_nonneg item). pose proof (Nat2Z.is_nonneg (size_of_shape shape)).
  nia.
Qed.

Lemma addressable_narrower item item' shape :
  item' <= item -> addressable item shape -> addressable item' shape.
Proof.
  unfold addressable. intros Hle H.
  destruct (size_below_nonzero_product shape) as [H1 _].
  nia.
Qed.

Lemma int64_wrap_small z :
  (- 2 ^ 63 <= z < 2 ^ 63)%Z -> int64_wrap z = z.
Proof.
  intros H. unfold int64_wrap. rewrite Z.mod_small; lia.
Qed.

(** On an addressable shape of at least one dimension the product does not
    wrap around. *)
Lemma numpy_prod_addressable shape :
  shape <> [] ->
  addressable (itemsize float32) shape ->
  numpy_prod shape = np_int (Z.of_nat (size_of_shape shape)).
Proof.
  intros Hs Ha. destruct shape as [|d ds]; [congruence|].
  unfold numpy_prod. rewrite <- size_of_shape_Z.
  pose proof (addressable_bytes Ha) as Hb.
  change (Z.of_nat (itemsize float32)) with 4%Z in Hb.
  rewrite int64_wrap_small; [reflexivity|].
  pose proof (Nat2Z.is_nonneg (size_of_shape (d :: ds))). lia.
Qed.

Lemma numpy_empty_addressable n w :
  (Z.of_nat (itemsize float32) * Z.of_nat n < 2 ^ 63)%Z ->
  numpy_empty (np_int (Z.of_nat n)) w
  = (Ok (mk_ndarray float32 [n] (map (ram w) (seq (brk w) (itemsize float32 * n)))),
     mk_world (inbox w) (ram w) (brk w + itemsize float32 * n) (calls w)).
Proof.
  intros H. unfold numpy_empty.
  destruct (Z.ltb_spec (Z.of_nat n) 0) as [Hn|_]; [lia|].
  destruct (Z.leb_spec (2 ^ 63) (Z.of_nat (itemsize float32) * Z.of_nat n)) as [Hb|_];
    [lia|].
  rewrite Nat2Z.id. reflexivity.
Qed.

(** The product of a shape that is not addressable wraps around: the shape
    [(2^32, 2^32)] counts [0] elements. *)
Lemma numpy_prod_wraps n :
  Z.of_nat n = (2 ^ 32)%Z -> numpy_prod [n; n] = np_int 0.
Proof.
  intros Hn. unfold numpy_prod. cbn [map fold_right].
  rewrite Hn. reflexivity.
Qed.

(** For that shape [recv] allocates an empty buffer, receives an empty
    message into it and fails to reshape it. *)
Lemma recv_buffer_wraps n source tag w rest :
  Z.of_nat n = (2 ^ 32)%Z ->
  pending source tag (inbox w) = Buffer [] :: rest ->
  fst (recv_buffer [n; n] source tag w) = Raise (ValueError "cannot reshape array").
Proof.
  intros Hn Hp. destruct (take_first_pending _ _ _ Hp) as (q & Ht & _).
  unfold recv_buffer. rewrite (@numpy_prod_wraps n Hn).
  change (numpy_empty (np_int 0))
    with (fun w : world =>
            (Ok (mk_ndarray float32 [0] []),
             mk_world (inbox w) (ram w) (brk w + 0) (calls w))).
  unfold mpi_comm_Recv, lift, reshape, arr_size.
  cbn [bind ret Monad_Py inbox ram brk calls arr_data arr_shape arr_dtype].
  rewrite Ht.
  cbn [length Nat.leb app skipn bind ret Monad_Py fst arr_data arr_shape arr_dtype].
  destruct (Nat.eqb_spec (size_of_shape [n; n]) (size_of_shape [0])) as [E|_];
    [|reflexivity].
  exfalso. unfold size_of_shape in E. cbn [fold_right] in E. nia.
Qed.

(** One shape of at least one dimension: the buffer is allocated from the
    memory as it lies, handed to [Recv] once, and reshaped. *)
Lemma recv_buffer_spec shape source tag w bs rest :
  shape <> [] ->
  addressable (itemsize float32) shape ->
  pending source tag (inbox w) = Buffer bs :: rest ->
  length bs <= itemsize float32 * size_of_shape shape ->
  exists q',
    recv_buffer shape source tag w
    = (Ok (mk_ndarray float32 shape
             (filled (map (ram w) (seq (brk w) (itemsize float32 * size_of_shape shape))) bs)),
       mk_world q' (ram w) (brk w + itemsize float32 * size_of_shape shape)
         (calls w ++ [mpi_Recv (map (ram w) (seq (brk w) (itemsize float32 * size_of_shape shape)))
                        source tag]))
    /\ pending source tag q' = rest.
Proof.
  intros Hs Ha Hp Hl.
  destruct (take_first_pending _ _ _ Hp) as (q' & Ht & Hq').
  exists q'. split; [|exact Hq'].
  unfold recv_buffer. rewrite (numpy_prod_addressable Hs Ha).
  cbn [bind Monad_Py]. rewrite (@numpy_empty_addressable _ w (addressable_bytes Ha)).
  unfold mpi_comm_Recv, lift, reshape, arr_size.
  cbn [bind ret Monad_Py inbox ram brk calls arr_data arr_shape arr_dtype].
  rewrite Ht.
  cbn [bind ret Monad_Py inbox ram brk calls arr_data arr_shape arr_dtype].
  rewrite length_map, length_seq.
  destruct (Nat.leb_spec (length bs) (itemsize float32 * size_of_shape shape));
    [|lia].
  cbn [arr_data arr_shape arr_dtype].
  replace (size_of_shape [size_of_shape shape]) with (size_of_shape shape)
    by (unfold size_of_shape at 2; cbn [fold_right]; lia).
  rewrite Nat.eqb_refl. reflexivity.
Qed.

(** A shape without dimension: [numpy.prod(())] is a float and
    [numpy.empty] refuses it before anything is received. *)
Lemma recv_buffer_scalar source tag w :
  recv_buffer [] source tag w
  = (Raise (TypeError "'numpy.float64' object cannot be interpreted as an integer"), w).
Proof. reflexivity. Qed.

Lemma recv_loop_spec source tag shapes :
  forall bufs w msg rest,
    Forall receivable shapes ->
    Forall2 (fun shape bs => length bs <= itemsize float32 * size_of_shape shape)
      shapes bufs ->
    pending source tag (inbox w) = map Buffer bufs ++ rest ->
    exists allocs w',
      recv_loop shapes source tag msg w
      = (Ok (msg ++ rebuilt shapes allocs bufs), w') /\
      Forall2 (fun shape alloc => length alloc = itemsize float32 * size_of_shape shape)
        shapes allocs /\
      Forall (uninitialised (ram w)) allocs /\
      calls w' = calls w ++ map (fun alloc => mpi_Recv alloc source tag) allocs /\
      pending source tag (inbox w') = rest /\
      ram w' = ram w.
Proof.
  induction shapes as [|shape shapes IH]; intros bufs w msg rest Hne Hfit Hp.
  - inversion Hfit; subst. exists [], w. simpl in *.
    rewrite !app_nil_r. repeat split; auto.
  - inversion Hfit as [|? bs ? bufs' Hbs Hfit']; subst.
    inversion Hne as [|? ? [Hs Ha] Hne']; subst.
    simpl in Hp.
    destruct (@recv_buffer_spec shape source tag w bs _ Hs Ha Hp Hbs) as (q' & Hr & Hq').
    set (alloc := map (ram w) (seq (brk w) (itemsize float32 * size_of_shape shape))) in *.
    set (w1 := mk_world q' (ram w) (brk w + itemsize float32 * size_of_shape shape)
                 (calls w ++ [mpi_Recv alloc source tag])) in *.
    destruct (IH bufs' w1 (msg ++ [mk_ndarray float32 shape (filled alloc bs)]) rest
                Hne' Hfit' Hq')
      as (allocs & w' & Hloop & Hlen & Hun & Hcalls & Hpend & Hram).
    exists (alloc :: allocs), w'.
    cbn [recv_loop bind Monad_Py]. rewrite Hr, Hloop.
    repeat split.
    + cbn [rebuilt]. rewrite <- app_assoc. reflexivity.
    + constructor; [|exact Hlen].
      unfold alloc. rewrite length_map, length_seq. reflexivity.
    + constructor; [|exact Hun].
      exists (brk w). unfold alloc. rewrite length_map, length_seq. reflexivity.
    + rewrite Hcalls. unfold w1. cbn [calls map]. rewrite <- app_assoc. reflexivity.
    + exact Hpend.
    + rewrite Hram. reflexivity.
Qed.

Lemma rebuilt_shapes shapes :
  forall allocs bufs,
    length allocs = length shapes -> length bufs = length shapes ->
    map arr_shape (rebuilt shapes allocs bufs) = shapes /\
    Forall (fun a => arr_dtype a = float32) (rebuilt shapes allocs bufs).
Proof.
  induction shapes as [|shape shapes IH]; intros allocs bufs Ha Hb.
  - split; [reflexivity | constructor].
  - destruct allocs as [|alloc allocs]; [discriminate|].
    destruct bufs as [|bs bufs]; [discriminate|].
    simpl in Ha, Hb. injection Ha as Ha. injection Hb as Hb.
    destruct (IH allocs bufs Ha Hb) as [Hs Hd].
    cbn [rebuilt map arr_shape]. rewrite Hs. split; [reflexivity|].
    constructor; [reflexivity | exact Hd].
Qed.

(** The whole of [recv] on an inbox that holds a descriptor and then one
    buffer per declared shape, no longer than the shape asks. *)
Lemma recv_spec source tag w m bufs rest :
  pending source tag (inbox w) = Pickled m :: map Buffer bufs ++ rest ->
  Forall receivable (shapes m) ->
  Forall2 (fun shape bs => length bs <= itemsize float32 * size_of_shape shape)
    (shapes m) bufs ->
  (is_tuple m = false -> length (shapes m) = 1) ->
  exists allocs v w',
    recv source tag w = (Ok v, w') /\
    returned m (rebuilt (shapes m) allocs bufs) v /\
    Forall2 (fun shape alloc => length alloc = itemsize float32 * size_of_shape shape)
      (shapes m) allocs /\
    Forall (uninitialised (ram w)) allocs /\
    calls w' = calls w ++ mpi_recv source tag
                 :: map (fun alloc => mpi_Recv alloc source tag) allocs /\
    pending source tag (inbox w') = rest.
Proof.
  intros Hp Hne Hfit Hone.
  destruct (take_first_pending _ _ _ Hp) as (q1 & Ht & Hq1).
  set (w1 := mk_world q1 (ram w) (brk w) (calls w ++ [mpi_recv source tag])).
  assert (Hhdr : mpi_comm_recv source tag w = (Ok m, w1)).
  { unfold mpi_comm_recv. rewrite Ht. reflexivity. }
  unfold recv, returned. cbn [bind Monad_Py]. rewrite Hhdr.
  destruct (is_tuple m) eqn:Htup.
  - destruct (@recv_loop_spec source tag (shapes m) bufs w1 [] rest Hne Hfit Hq1)
      as (allocs & w' & Hloop & Hlen & Hun & Hcalls & Hpend & Hram).
    exists allocs, (PyTuple (map PyArray (rebuilt (shapes m) allocs bufs))), w'.
    cbn [bind ret Monad_Py]. rewrite Hloop. cbn [app].
    repeat split; trivial.
    rewrite Hcalls. unfold w1. cbn [calls]. rewrite <- app_assoc. reflexivity.
  - specialize (Hone eq_refl).
    destruct (shapes m) as [|shape [|]] eqn:Hsh; try discriminate.
    inversion Hfit as [|? bs ? bufs' Hbs Hfit']; subst.
    inversion Hfit'; subst.
    inversion Hne as [|? ? [Hs Ha] _]; subst.
    destruct (@recv_buffer_spec shape source tag w1 bs rest Hs Ha Hq1 Hbs)
      as (q' & Hr & Hq').
    unfold py_assert, getitem, lift.
    cbn [length Nat.eqb bind ret Monad_Py nth_error].
    rewrite Hr.
    eexists [_], _, _. split; [reflexivity|].
    cbn [rebuilt]. repeat split.
    + eexists. split; reflexivity.
    + repeat constructor. cbn [ram w1]. rewrite length_map, length_seq. reflexivity.
    + repeat constructor. exists (brk w). cbn [ram brk w1].
      rewrite length_map, length_seq. reflexivity.
    + cbn [calls w1 map ram brk]. rewrite <- app_assoc. reflexivity.
    + exact Hq'.
Qed.

(** C4, as the code has it: for a descriptor all of whose declared shapes
    have at least one dimension and an addressable size, which declares
    exactly one shape when [is_tuple] is false, and whose bulk messages are
    each no longer than the buffer of their shape, [recv] allocates for each
    declared shape, in the order of the descriptor, a flat float32 buffer of
    as many elements as the product of the shape, over memory that is not
    initialised; hands each buffer to one [Recv]; and returns the arrays
    rebuilt from the buffers under the declared shapes. *)
Theorem recv_allocates_per_declared_array source tag w m bufs rest :
  pending source tag (inbox w) = Pickled m :: map Buffer bufs ++ rest ->
  Forall receivable (shapes m) ->
  Forall2 (fun shape bs => length bs <= itemsize float32 * size_of_shape shape)
    (shapes m) bufs ->
  (is_tuple m = false -> length (shapes m) = 1) ->
  exists allocs arrays v w',
    recv source tag w = (Ok v, w') /\
    Forall2 (fun shape alloc => length alloc = itemsize float32 * size_of_shape shape)
      (shapes m) allocs /\
    Forall (uninitialised (ram w)) allocs /\
    calls w' = calls w ++ mpi_recv source tag
                 :: map (fun alloc => mpi_Recv alloc source tag) allocs /\
    arrays = rebuilt (shapes m) allocs bufs /\
    map arr_shape arrays = shapes m /\
    Forall (fun a => arr_dtype a = float32) arrays /\
    returned m arrays v.
Proof.
  intros Hp Hne Hfit Hone.
  destruct (@recv_spec source tag w m bufs rest Hp Hne Hfit Hone)
    as (allocs & v & w' & Hr & Hv & Hlen & Hun & Hcalls & _).
  exists allocs, (rebuilt (shapes m) allocs bufs), v, w'.
  destruct (@rebuilt_shapes (shapes m) allocs bufs) as [Hs Hd].
  { symmetry. eapply Forall2_length. exact Hlen. }
  { symmetry. eapply Forall2_length. exact Hfit. }
  repeat split; trivial.
Qed.

Lemma recv_allocates_per_declared_array_witness :
  exists allocs arrays v w',
    recv 0 7 pair_world = (Ok v, w') /\
    Forall2 (fun shape alloc => length alloc = itemsize float32 * size_of_shape shape)
      [[3]; [2; 2]] allocs /\
    Forall (uninitialised (fun _ => xff)) allocs /\
    calls w' = mpi_recv 0 7 :: map (fun alloc => mpi_Recv alloc 0 7) allocs /\
    arrays = rebuilt [[3]; [2; 2]] allocs [arr_data vec3; arr_data mat22] /\
    map arr_shape arrays = [[3]; [2; 2]] /\
    Forall (fun a => arr_dtype a = float32) arrays /\
    returned (mk_MessageType true 2 [1; 2] [[3]; [2; 2]]) arrays v.
Proof.
  apply (@recv_allocates_per_declared_array 0 7 pair_world
           (mk_MessageType true 2 [1; 2] [[3]; [2; 2]])
           [arr_data vec3; arr_data mat22] []).
  - reflexivity.
  - repeat constructor; try discriminate; reflexivity.
  - repeat constructor; simpl; lia.
  - discriminate.
Defined.

(** C4, as stated, has [recv] allocate a zeroed buffer.  The buffer it hands
    to [Recv] holds what the memory held, here eight bytes [xff]; after a bulk
    message of four bytes the second element of the array returned is made of
    those bytes, not of zeros. *)
Lemma recv_buffer_is_not_zeroed :
  recv 0 7 short_world
  = (Ok (PyArray (mk_ndarray float32 [2]
                    [x00; x00; x80; x3f; xff; xff; xff; xff])),
     mk_world [] (fun _ => xff) 8 [mpi_recv 0 7; mpi_Recv (repeat xff 8) 0 7])
  /\ repeat xff 8 <> repeat x00 (itemsize float32 * size_of_shape [2]).
Proof. split; [reflexivity | discriminate]. Qed.

(** ** The branch on [is_tuple] *)

(** A descriptor with [is_tuple] false that does not declare exactly one
    shape fails the assertion of [recv] after the header, and no bulk
    transfer is received. *)
Lemma recv_asserts_single_shape source tag w m later :
  pending source tag (inbox w) = Pickled m :: later ->
  is_tuple m = false ->
  length (shapes m) <> 1 ->
  fst (recv source tag w) = Raise AssertionError /\
  calls (snd (recv source tag w)) = calls w ++ [mpi_recv source tag] /\
  pending source tag (inbox (snd (recv source tag w))) = later.
Proof.
  intros Hp Htup Hn.
  destruct (take_first_pending _ _ _ Hp) as (q1 & Ht & Hq1).
  unfold recv, mpi_comm_recv, py_assert. cbn [bind Monad_Py].
  rewrite Ht, Htup.
  destruct (Nat.eqb_spec (length (shapes m)) 1) as [E|_]; [contradiction|].
  repeat split. exact Hq1.
Qed.

Example recv_two_shapes_in_single :
  recv 0 7 two_in_single_world
  = (Raise AssertionError,
     mk_world [mk_message 0 7 (Buffer [x00; x00; x80; x3f]);
               mk_message 0 7 (Buffer [x00; x00; x80; x3f])]
       (fun _ => xff) 0 [mpi_recv 0 7]).
Proof. reflexivity. Qed.

Example recv_single_array :
  fst (recv 0 7 single_world) = Ok (PyArray vec3).
Proof. reflexivity. Qed.

(** C9 at a descriptor with [is_tuple] false that declares the one shape
    [()]: the assertion passes, and [recv] raises [TypeError] on allocating
    the buffer instead of returning the single array; the bulk message is
    left in the inbox. *)
Theorem recv_single_scalar_shape_raises source tag w m later :
  pending source tag (inbox w) = Pickled m :: later ->
  is_tuple m = false ->
  shapes m = [[]] ->
  fst (recv source tag w)
  = Raise (TypeError "'numpy.float64' object cannot be interpreted as an integer") /\
  calls (snd (recv source tag w)) = calls w ++ [mpi_recv source tag] /\
  pending source tag (inbox (snd (recv source tag w))) = later.
Proof.
  intros Hp Htup Hsh.
  destruct (take_first_pending _ _ _ Hp) as (q1 & Ht & Hq1).
  unfold recv, mpi_comm_recv, py_assert, getitem, lift. cbn [bind Monad_Py].
  rewrite Ht, Htup, Hsh. repeat split. exact Hq1.
Qed.

Lemma recv_single_scalar_shape_raises_witness :
  fst (recv 0 7 scalar_world)
  = Raise (TypeError "'numpy.float64' object cannot be interpreted as an integer") /\
  calls (snd (recv 0 7 scalar_world)) = [mpi_recv 0 7] /\
  pending 0 7 (inbox (snd (recv 0 7 scalar_world))) = [Buffer [x00; x00; x80; x3f]].
Proof.
  apply (@recv_single_scalar_shape_raises 0 7 scalar_world
           (mk_MessageType false 1 [0] [[]]) [Buffer [x00; x00; x80; x3f]]);
    reflexivity.
Defined.

(** ** A send matched by a receive *)

Lemma comprehension_ndim_of_arrays arrays :
  comprehension getattr_ndim (map PyArray arrays) = Ok (map arr_ndim arrays).
Proof.
  induction arrays as [|a arrays IH]; simpl; [reflexivity|].
  rewrite IH. reflexivity.
Qed.

Lemma send_tuple_of_arrays arrays dest tag :
  send (PyTuple (map PyArray arrays)) dest tag []
  = (Ok tt,
     mpi_send (mk_MessageType true (length arrays) (map arr_ndim arrays)
                 (map arr_shape arrays)) dest tag
       :: map (fun a => mpi_Send (arr_data a) dest tag) arrays).
Proof.
  unfold send, MessageType_init. cbn.
  rewrite comprehension_ndim_of_arrays, comprehension_shape_arrays. cbn.
  rewrite length_map.
  rewrite (send_loop _ arrays dest tag) by reflexivity. reflexivity.
Qed.

(** What process [dest] finds from [src] with [tag] after a header and the
    bulk transfers that follow it. *)
Lemma pending_deliver src dest tag m arrays :
  pending src tag
    (deliver src (mpi_send m dest tag
                    :: map (fun a => mpi_Send (arr_data a) dest tag) arrays) dest)
  = Pickled m :: map Buffer (map arr_data arrays).
Proof.
  assert (Hm : forall b, matches src tag (mk_message src tag b) = true).
  { intros b. unfold matches. simpl. rewrite !Z.eqb_refl. reflexivity. }
  unfold pending, deliver. simpl. rewrite Z.eqb_refl. simpl. rewrite Hm.
  simpl. f_equal.
  induction arrays as [|a arrays IH]; [reflexivity|].
  simpl. rewrite Z.eqb_refl. simpl. rewrite Hm. simpl. f_equal. exact IH.
Qed.

(** Buffers of float32 arrays, received whole, rebuild the arrays. *)
Lemma rebuilt_arrays arrays :
  Forall (fun a => arr_dtype a = float32 /\ wf_ndarray a) arrays ->
  forall allocs,
    Forall2 (fun shape alloc => length alloc = itemsize float32 * size_of_shape shape)
      (map arr_shape arrays) allocs ->
    rebuilt (map arr_shape arrays) allocs (map arr_data arrays) = arrays.
Proof.
  induction 1 as [|a arrays [Hd Hwf] _ IH]; intros allocs Hlen.
  - reflexivity.
  - inversion Hlen as [|? alloc ? allocs' Ha Hlen']; subst.
    cbn [map rebuilt]. rewrite (IH _ Hlen'). f_equal.
    rewrite filled_exact.
    + destruct a as [d s bs]. simpl in *. subst d. reflexivity.
    + rewrite Ha. destruct Hwf as [Hwf _]. unfold arr_size in Hwf.
      rewrite Hwf, Hd. reflexivity.
Qed.

(** The shapes and buffers of arrays of four-byte elements are what [recv]
    can rebuild arrays for. *)
Lemma arrays_receivable arrays :
  Forall (fun a => itemsize (arr_dtype a) = itemsize float32 /\ wf_ndarray a) arrays ->
  Forall (fun a => arr_shape a <> []) arrays ->
  Forall receivable (map arr_shape arrays).
Proof.
  intros Hwf Hdim. apply Forall_map.
  rewrite Forall_forall in *. intros a Ha.
  destruct (Hwf a Ha) as [Hd [_ Hb]]. split; [exact (Hdim a Ha)|].
  rewrite <- Hd. exact Hb.
Qed.

Lemma arrays_fit arrays :
  Forall (fun a => itemsize (arr_dtype a) = itemsize float32 /\ wf_ndarray a) arrays ->
  Forall2 (fun shape bs => length bs <= itemsize float32 * size_of_shape shape)
    (map arr_shape arrays) (map arr_data arrays).
Proof.
  induction 1 as [|a arrays [Hd [Hwf _]] _ IH]; cbn [map]; constructor; [|exact IH].
  unfold arr_size in Hwf. rewrite Hwf, Hd. reflexivity.
Qed.

Lemma float32_four_bytes arrays :
  Forall (fun a => arr_dtype a = float32 /\ wf_ndarray a) arrays ->
  Forall (fun a => itemsize (arr_dtype a) = itemsize float32 /\ wf_ndarray a) arrays.
Proof.
  apply Forall_impl. intros a [Hd Hwf]. rewrite Hd. split; trivial.
Qed.

(** The round trip, for float32 arrays of at least one dimension: a single
    array comes back as that array, a tuple of arrays as that tuple.  The
    inbox of the receiver may hold other traffic beside the messages of this
    send. *)
Lemma recv_after_send obj arrays src dest tag w :
  (obj = PyTuple (map PyArray arrays) \/ exists a, obj = PyArray a /\ arrays = [a]) ->
  Forall (fun a => arr_dtype a = float32 /\ wf_ndarray a) arrays ->
  Forall (fun a => arr_shape a <> []) arrays ->
  pending src tag (inbox w)
  = pending src tag (deliver src (snd (send obj dest tag [])) dest) ->
  fst (send obj dest tag []) = Ok tt /\
  fst (recv src tag w) = Ok obj.
Proof.
  intros Hobj Hf32 Hdim Hin.
  assert (Hsend : exists m,
            send obj dest tag []
            = (Ok tt, mpi_send m dest tag
                        :: map (fun a => mpi_Send (arr_data a) dest tag) arrays) /\
            shapes m = map arr_shape arrays /\
            returned m arrays obj).
  { destruct Hobj as [-> | (a & -> & ->)].
    - eexists. split; [apply send_tuple_of_arrays|]. split; reflexivity.
    - exists (mk_MessageType false 1 [arr_ndim a] [arr_shape a]).
      split; [reflexivity|]. split; [reflexivity|].
      exists a. split; reflexivity. }
  destruct Hsend as (m & Hsend & Hshapes & Hret).
  rewrite Hsend in *. split; [reflexivity|].
  cbn [snd] in Hin. rewrite pending_deliver in Hin.
  rewrite <- (app_nil_r (map Buffer _)) in Hin.
  destruct (@recv_spec src tag w m (map arr_data arrays) [] Hin)
    as (allocs & v & w' & Hr & Hv & Hlen & _).
  - rewrite Hshapes. apply arrays_receivable; [apply float32_four_bytes|]; assumption.
  - rewrite Hshapes. apply arrays_fit, float32_four_bytes. exact Hf32.
  - intros Htup. rewrite Hshapes, length_map.
    unfold returned in Hret. rewrite Htup in Hret.
    destruct Hret as (a & -> & _). reflexivity.
  - rewrite Hr. cbn [fst]. f_equal.
    rewrite Hshapes in Hv, Hlen. rewrite (rebuilt_arrays Hf32 Hlen) in Hv.
    unfold returned in Hv, Hret.
    destruct (is_tuple m).
    + congruence.
    + destruct Hv as (a & Ha & ->). destruct Hret as (a' & Ha' & ->). congruence.
Qed.

Lemma recv_after_send_witness :
  fst (send (PyTuple [PyArray vec3; PyArray mat22]) 1 7 []) = Ok tt /\
  fst (recv 0 7 pair_world) = Ok (PyTuple [PyArray vec3; PyArray mat22]).
Proof.
  apply (@recv_after_send (PyTuple [PyArray vec3; PyArray mat22]) [vec3; mat22]
           0 1 7 pair_world).
  - left. reflexivity.
  - repeat constructor.
  - repeat constructor; discriminate.
  - reflexivity.
Defined.

(** C1 at an array without dimension: [send] accepts it and transfers its
    header and its four bytes; the matching [recv] raises [TypeError] when it
    allocates the buffer, whatever the memory holds, and returns no array. *)
Theorem scalar_array_is_not_received mem :
  arr_dtype scalar0d = float32 /\ wf_ndarray scalar0d /\
  send (PyArray scalar0d) 1 7 []
  = (Ok tt, [mpi_send (mk_MessageType false 1 [0] [[]]) 1 7;
             mpi_Send [x00; x00; x80; x3f] 1 7]) /\
  send_then_recv (PyArray scalar0d) 7 mem
  = Raise (TypeError "'numpy.float64' object cannot be interpreted as an integer").
Proof. repeat split. Qed.

(** ** Communicators *)

Section CommunicatorProperties.

Context {X : Collaborators}.

(** C7: when NCCL is asked for and is not available, the constructor raises
    its [RuntimeError] before [init_ranks] is called and builds no object.
    Otherwise it calls [init_ranks] once; when the first number returned is
    the rank of the process group the object is built with the four other
    numbers and with no scope: [inter_mpi_comm] and [intra_mpi_comm] are
    [None], and so is [intra_nccl_comm], which exists only when NCCL is in
    use; when it is not, the assertion of [_init_ranks] fails. *)
Theorem construction_checks_nccl_first c use_nccl t r0 r1 r2 r3 r4 :
  init_ranks c = (r0, r1, r2, r3, r4) ->
  (use_nccl = true -> nccl_available = false ->
     NodeAware_init c use_nccl t = (Raise NCCL_is_not_available, t)) /\
  (use_nccl && negb nccl_available = false ->
     snd (NodeAware_init c use_nccl t) = t ++ [call_init_ranks c] /\
     (r0 = comm_rank c ->
        fst (NodeAware_init c use_nccl t)
        = Ok (mk_NodeAware (mk_CommunicatorBase c) use_nccl r1 r2 r3 r4 None None
                (if use_nccl then Some None else None))) /\
     (r0 <> comm_rank c ->
        fst (NodeAware_init c use_nccl t) = Raise AssertionError)).
Proof.
  intros Hr. split.
  - intros -> Ha. unfold NodeAware_init. rewrite Ha. reflexivity.
  - intros Hg. unfold NodeAware_init, log, py_assert, CommunicatorBase_init.
    rewrite Hg. cbn [bind ret Monad_Py mpi_comm]. rewrite Hr.
    destruct (Nat.eqb_spec r0 (comm_rank c)) as [E|E]; repeat split; trivial;
      intros E'; contradiction.
Qed.

(** [split] of a [CommunicatorBase] wraps the group that [Split] returns in a
    new [CommunicatorBase]. *)
Lemma split_of_base self color key t :
  split (Base self) color key t
  = (Ok (Base (mk_CommunicatorBase (comm_Split (mpi_comm self) color key))),
     t ++ [call_Split (mpi_comm self) color key]).
Proof. reflexivity. Qed.

(** C2 at a [NodeAwareCommunicatorBase]: [split] partitions the group and
    then calls the class with [mpi_comm] alone, which its constructor refuses
    for want of [use_nccl]; no communicator is returned, whether the scopes of
    the parent were built or not. *)
Theorem split_of_node_aware_raises self color key t :
  split (NodeAware self) color key t
  = (Raise (TypeError "__init__() missing 1 required positional argument: 'use_nccl'"),
     t ++ [call_Split (mpi_comm (super self)) color key]).
Proof. reflexivity. Qed.

(** An object whose scopes are built passes the guard of [_init_comms]
    untouched, and nothing is called. *)
Lemma init_comms_when_built self t :
  is_not_None (inter_mpi_comm self) = true ->
  is_not_None (intra_mpi_comm self) = true ->
  (use_nccl self = true -> exists v, intra_nccl_comm self = Some (Some v)) ->
  _init_comms (self, t) = (Ok tt, (self, t)).
Proof.
  intros Hinter Hintra Hnccl.
  unfold _init_comms, self_, py_assert, lift, get_intra_nccl_comm.
  cbn [bind ret Monad_Py fst snd]. rewrite Hinter, Hintra.
  cbn [bind ret Monad_Py fst snd].
  destruct (use_nccl self); [|reflexivity].
  destruct (Hnccl eq_refl) as (v & ->). reflexivity.
Qed.

(** The first call on an object without scopes asks [init_comms] once and
    stores what it returns. *)
Lemma init_comms_first self t comms :
  inter_mpi_comm self = None ->
  init_comms (mpi_comm (super self)) (intra_rank self) (intra_size self)
    (inter_rank self) (use_nccl self) = Ok comms ->
  (use_nccl self = true -> exists v, comms2 comms = Some v) ->
  exists self',
    _init_comms (self, t)
    = (Ok tt, (self', t ++ [call_init_comms (mpi_comm (super self)) (intra_rank self)
                              (intra_size self) (inter_rank self) (use_nccl self)])) /\
    intra_mpi_comm self' = Some (comms0 comms) /\
    inter_mpi_comm self' = Some (comms1 comms) /\
    (use_nccl self = true -> intra_nccl_comm self' = Some (comms2 comms)).
Proof.
  intros Hinter Hc H2.
  unfold _init_comms, self_, external, assign.
  cbn [bind ret Monad_Py fst snd]. rewrite Hinter. cbn [is_not_None].
  rewrite Hc. cbn [bind ret Monad_Py fst snd].
  destruct (use_nccl self) eqn:Hu.
  - destruct (H2 eq_refl) as (v & Hv). rewrite Hv.
    eexists. split; [reflexivity|]. repeat split.
  - eexists. split; [reflexivity|]. repeat split. discriminate.
Qed.

(** C6: a call of [_init_comms] that follows one that returned returns too,
    calls nothing, and leaves every attribute, the scopes among them, as the
    first call left it. *)
Theorem init_comms_twice self t self1 t1 :
  _init_comms (self, t) = (Ok tt, (self1, t1)) ->
  _init_comms (self1, t1) = (Ok tt, (self1, t1)).
Proof.
  intros H.
  destruct (inter_mpi_comm self) as [c|] eqn:Hinter.
  - (* the guard was taken: nothing changed *)
    assert (Hsame : self1 = self /\ t1 = t /\
                    is_not_None (intra_mpi_comm self) = true /\
                    (use_nccl self = true -> exists v, intra_nccl_comm self = Some (Some v))).
    { revert H.
      unfold _init_comms, self_, py_assert, lift, get_intra_nccl_comm, raise.
      cbn [bind ret Monad_Py fst snd]. rewrite Hinter. cbn [is_not_None].
      destruct (intra_mpi_comm self) as [c'|]; [|discriminate].
      cbn [bind ret Monad_Py fst snd].
      destruct (use_nccl self).
      - destruct (intra_nccl_comm self) as [[v|]|]; try discriminate.
        intros H. injection H as <- <-. repeat split. intros _. exists v. reflexivity.
      - intros H. injection H as <- <-. repeat split. discriminate. }
    destruct Hsame as (-> & -> & Hintra & Hnccl).
    apply init_comms_when_built; trivial. rewrite Hinter. reflexivity.
  - (* the scopes were built by the first call *)
    revert H.
    unfold _init_comms at 1. unfold self_, external, assign, raise.
    cbn [bind ret Monad_Py fst snd]. rewrite Hinter. cbn [is_not_None].
    destruct (init_comms _ _ _ _ _) as [comms|e]; [|discriminate].
    cbn [bind ret Monad_Py fst snd].
    destruct (use_nccl self) eqn:Hu.
    + destruct (comms2 comms) as [v|]; [|discriminate].
      intros H. injection H as <- <-.
      apply init_comms_when_built; try reflexivity.
      intros _. exists v. reflexivity.
    + intros H. injection H as <- <-.
      apply init_comms_when_built; try reflexivity.
      cbn [use_nccl set_inter_mpi_comm set_intra_mpi_comm]. rewrite Hu. discriminate.
Qed.

End CommunicatorProperties.

Lemma construction_checks_nccl_first_witness :
  @NodeAware_init (sample_collaborators false) 0 true []
  = (Raise NCCL_is_not_available, []) /\
  @NodeAware_init (sample_collaborators true) 0 true []
  = (Ok (mk_NodeAware (X := sample_collaborators true) (mk_CommunicatorBase (X := sample_collaborators true) 0) true 0 2 0 2 None None (Some None)),
     [call_init_ranks (X := sample_collaborators true) 0]).
Proof.
  split.
  - apply (@construction_checks_nccl_first (sample_collaborators false)
             0 true [] 0 0 2 0 2 eq_refl); reflexivity.
  - destruct (@construction_checks_nccl_first (sample_collaborators true)
                0 true [] 0 0 2 0 2 eq_refl) as [_ H].
    destruct (H eq_refl) as (Ht & Hok & _).
    rewrite (surjective_pairing (NodeAware_init _ _ _)), Ht, (Hok eq_refl).
    reflexivity.
Defined.

Lemma init_comms_twice_witness :
  exists self1 t1,
    @_init_comms (sample_collaborators true)
      (mk_NodeAware (X := sample_collaborators true)
         (mk_CommunicatorBase (X := sample_collaborators true) 0)
         true 0 2 0 2 None None (Some None), [])
    = (Ok tt, (self1, t1)) /\
    @_init_comms (sample_collaborators true) (self1, t1) = (Ok tt, (self1, t1)) /\
    intra_mpi_comm self1 = Some 10 /\ inter_mpi_comm self1 = Some 20 /\
    intra_nccl_comm self1 = Some (Some 30).
Proof.
  eexists _, _. split; [reflexivity|]. split; [|repeat split].
  apply (@init_comms_twice (sample_collaborators true)
           (mk_NodeAware (X := sample_collaborators true)
              (mk_CommunicatorBase (X := sample_collaborators true) 0)
              true 0 2 0 2 None None (Some None)) []).
  reflexivity.
Defined.

(** * Further properties of [send] and [recv] *)

Lemma send_list_of_arrays arrays dest tag :
  send (PyList (map PyArray arrays)) dest tag []
  = (Ok tt,
     mpi_send (mk_MessageType true (length arrays) (map arr_ndim arrays)
                 (map arr_shape arrays)) dest tag
       :: map (fun a => mpi_Send (arr_data a) dest tag) arrays).
Proof.
  unfold send, MessageType_init. cbn.
  rewrite comprehension_ndim_of_arrays, comprehension_shape_arrays. cbn.
  rewrite length_map.
  rewrite (send_loop _ arrays dest tag) by reflexivity. reflexivity.
Qed.

(** Buffers of arrays of four-byte elements, received whole, rebuild the
    arrays as float32 arrays. *)
Lemma rebuilt_as_float32 arrays :
  Forall (fun a => itemsize (arr_dtype a) = itemsize float32 /\ wf_ndarray a) arrays ->
  forall allocs,
    Forall2 (fun shape alloc => length alloc = itemsize float32 * size_of_shape shape)
      (map arr_shape arrays) allocs ->
    rebuilt (map arr_shape arrays) allocs (map arr_data arrays)
    = map as_float32 arrays.
Proof.
  induction 1 as [|a arrays [Hd Hwf] _ IH]; intros allocs Hlen.
  - reflexivity.
  - inversion Hlen as [|? alloc ? allocs' Ha Hlen']; subst.
    cbn [map rebuilt]. rewrite (IH _ Hlen'). f_equal.
    rewrite filled_exact; [reflexivity|].
    rewrite Ha. destruct Hwf as [Hwf _]. unfold arr_size in Hwf.
    rewrite Hwf, Hd. reflexivity.
Qed.

(** What a matched [recv] returns for arrays of four-byte elements with at
    least one dimension, sent alone, in a tuple or in a list. *)
Lemma recv_after_send_four_bytes obj arrays src dest tag w :
  (obj = PyTuple (map PyArray arrays) \/ obj = PyList (map PyArray arrays)
   \/ exists a, obj = PyArray a /\ arrays = [a]) ->
  Forall (fun a => itemsize (arr_dtype a) = itemsize float32 /\ wf_ndarray a) arrays ->
  Forall (fun a => arr_shape a <> []) arrays ->
  pending src tag (inbox w)
  = pending src tag (deliver src (snd (send obj dest tag [])) dest) ->
  fst (recv src tag w)
  = Ok (match obj with
        | PyArray a => PyArray (as_float32 a)
        | _ => PyTuple (map PyArray (map as_float32 arrays))
        end).
Proof.
  intros Hobj Hf32 Hdim Hin.
  assert (Hsend : exists m,
            send obj dest tag []
            = (Ok tt, mpi_send m dest tag
                        :: map (fun a => mpi_Send (arr_data a) dest tag) arrays) /\
            shapes m = map arr_shape arrays /\
            is_tuple m = negb (isinstance_ndarray obj)).
  { destruct Hobj as [-> | [-> | (a & -> & ->)]].
    - eexists. split; [apply send_tuple_of_arrays|]. split; reflexivity.
    - eexists. split; [apply send_list_of_arrays|]. split; reflexivity.
    - exists (mk_MessageType false 1 [arr_ndim a] [arr_shape a]).
      split; [reflexivity|]. split; reflexivity. }
  destruct Hsend as (m & Hsend & Hshapes & Htup).
  rewrite Hsend in Hin. cbn [snd] in Hin. rewrite pending_deliver in Hin.
  rewrite <- (app_nil_r (map Buffer _)) in Hin.
  destruct (@recv_spec src tag w m (map arr_data arrays) [] Hin)
    as (allocs & v & w' & Hr & Hv & Hlen & _).
  - rewrite Hshapes. apply arrays_receivable; assumption.
  - rewrite Hshapes. apply arrays_fit. exact Hf32.
  - intros Hm. rewrite Hshapes, length_map. rewrite Hm in Htup.
    destruct Hobj as [-> | [-> | (a & -> & ->)]]; try discriminate. reflexivity.
  - rewrite Hr. cbn [fst]. f_equal.
    rewrite Hshapes in Hv, Hlen. rewrite (rebuilt_as_float32 Hf32 Hlen) in Hv.
    unfold returned in Hv. rewrite Htup in Hv.
    destruct Hobj as [-> | [-> | (a & -> & ->)]]; cbn in Hv.
    + exact Hv.
    + exact Hv.
    + destruct Hv as (a' & Ha & ->). injection Ha as <-. reflexivity.
Qed.

Lemma as_float32_id arrays :
  Forall (fun a => arr_dtype a = float32) arrays -> map as_float32 arrays = arrays.
Proof.
  induction 1 as [|a arrays Hd _ IH]; [reflexivity|].
  cbn [map]. rewrite IH. f_equal. destruct a as [d s bs]. simpl in Hd. subst d.
  reflexivity.
Qed.

(** A list of float32 arrays of at least one dimension is received as the
    tuple of the same arrays: the descriptor does not tell a list from a
    tuple. *)
Theorem list_is_received_as_tuple arrays src dest tag w :
  Forall (fun a => arr_dtype a = float32 /\ wf_ndarray a) arrays ->
  Forall (fun a => arr_shape a <> []) arrays ->
  pending src tag (inbox w)
  = pending src tag
      (deliver src (snd (send (PyList (map PyArray arrays)) dest tag [])) dest) ->
  MessageType_init (PyList (map PyArray arrays))
  = MessageType_init (PyTuple (map PyArray arrays)) /\
  fst (recv src tag w) = Ok (PyTuple (map PyArray arrays)).
Proof.
  intros Hf32 Hdim Hin. split; [reflexivity|].
  rewrite (@recv_after_send_four_bytes (PyList (map PyArray arrays)) arrays
             src dest tag w); trivial.
  - rewrite as_float32_id; [reflexivity|].
    eapply Forall_impl; [|exact Hf32]. intros a [Hd _]. exact Hd.
  - right. left. reflexivity.
  - eapply Forall_impl; [|exact Hf32]. intros a [Hd Hwf]. rewrite Hd. split; trivial.
Qed.

Lemma list_is_received_as_tuple_witness :
  fst (recv 0 7 list_world) = Ok (PyTuple [PyArray vec3; PyArray mat22]).
Proof.
  apply (@list_is_received_as_tuple [vec3; mat22] 0 1 7 list_world).
  - repeat constructor.
  - repeat constructor; discriminate.
  - reflexivity.
Defined.

(** The element type does not travel: an array of any four-byte element type
    and at least one dimension is received as a float32 array of the same
    shape over the same bytes. *)
Theorem four_byte_array_is_received_as_float32 a src dest tag w :
  itemsize (arr_dtype a) = itemsize float32 ->
  wf_ndarray a ->
  arr_shape a <> [] ->
  pending src tag (inbox w)
  = pending src tag (deliver src (snd (send (PyArray a) dest tag [])) dest) ->
  fst (recv src tag w)
  = Ok (PyArray (mk_ndarray float32 (arr_shape a) (arr_data a))).
Proof.
  intros Hd Hwf Hs Hin.
  apply (@recv_after_send_four_bytes (PyArray a) [a] src dest tag w); trivial.
  - right. right. exists a. split; reflexivity.
  - constructor; [split; assumption | constructor].
  - constructor; [assumption | constructor].
Qed.

Lemma four_byte_array_is_received_as_float32_witness :
  fst (recv 0 7 ints_world)
  = Ok (PyArray (mk_ndarray float32 [2] [x01; x00; x00; x00;  x02; x00; x00; x00])).
Proof.
  apply (@four_byte_array_is_received_as_float32 ints2 0 1 7 ints_world).
  - reflexivity.
  - split; reflexivity.
  - discriminate.
  - reflexivity.
Defined.

(** An array of elements wider than four bytes that holds at least one
    element does not fit the float32 buffer [recv] allocates for its shape:
    the bulk transfer is truncated and [recv] raises. *)
Theorem wide_array_is_truncated a src dest tag w :
  itemsize float32 < itemsize (arr_dtype a) ->
  wf_ndarray a ->
  arr_shape a <> [] ->
  0 < arr_size a ->
  pending src tag (inbox w)
  = pending src tag (deliver src (snd (send (PyArray a) dest tag [])) dest) ->
  fst (send (PyArray a) dest tag []) = Ok tt /\
  fst (recv src tag w) = Raise (MPIError "MPI_ERR_TRUNCATE").
Proof.
  intros Hd [Hwf Hb] Hs Hpos Hin. split; [reflexivity|].
  change (snd (send (PyArray a) dest tag []))
    with (mpi_send (mk_MessageType false 1 [arr_ndim a] [arr_shape a]) dest tag
            :: map (fun a => mpi_Send (arr_data a) dest tag) [a]) in Hin.
  rewrite pending_deliver in Hin. cbn [map] in Hin.
  destruct (take_first_pending _ _ _ Hin) as (q1 & Ht1 & Hq1).
  destruct (take_first_pending _ _ _ Hq1) as (q2 & Ht2 & _).
  assert (Ha : addressable (itemsize float32) (arr_shape a)).
  { apply (@addressable_narrower (itemsize (arr_dtype a))); [lia | exact Hb]. }
  unfold recv, mpi_comm_recv, py_assert, getitem, lift, recv_buffer.
  cbn [bind ret Monad_Py]. rewrite Ht1.
  cbn [bind ret Monad_Py is_tuple shapes length Nat.eqb nth_error].
  rewrite (numpy_prod_addressable Hs Ha).
  rewrite (@numpy_empty_addressable _ _ (addressable_bytes Ha)).
  unfold mpi_comm_Recv. cbn [inbox ram brk calls arr_data].
  rewrite Ht2, length_map, length_seq.
  unfold arr_size in Hwf, Hpos.
  destruct (Nat.leb_spec (length (arr_data a))
              (itemsize float32 * size_of_shape (arr_shape a))) as [Hle|_];
    [|reflexivity].
  rewrite Hwf in Hle. exfalso.
  remember (size_of_shape (arr_shape a)) as n.
  remember (itemsize (arr_dtype a)) as k.
  change (itemsize float32) with 4 in *. nia.
Qed.

Lemma wide_array_is_truncated_witness :
  fst (send (PyArray doubles2) 1 7 []) = Ok tt /\
  fst (recv 0 7 doubles_world) = Raise (MPIError "MPI_ERR_TRUNCATE").
Proof.
  apply (@wide_array_is_truncated doubles2 0 1 7 doubles_world).
  - simpl. lia.
  - split; reflexivity.
  - discriminate.
  - unfold arr_size. simpl. lia.
  - reflexivity.
Defined.

(** A container without elements (an empty tuple, list or string) is sent
    as a header alone, and the matching [recv] returns the empty tuple
    without receiving any bulk transfer. *)
Theorem empty_container_is_received_as_empty_tuple obj src dest tag w :
  is_container obj = true ->
  py_iter obj = Ok [] ->
  pending src tag (inbox w)
  = pending src tag (deliver src (snd (send obj dest tag [])) dest) ->
  send obj dest tag [] = (Ok tt, [mpi_send (mk_MessageType true 0 [] []) dest tag]) /\
  fst (recv src tag w) = Ok (PyTuple []) /\
  calls (snd (recv src tag w)) = calls w ++ [mpi_recv src tag].
Proof.
  intros Hc Hi Hin.
  pose proof (@send_empty_container obj dest tag [] Hc Hi) as Hsend.
  cbn [app] in Hsend. rewrite Hsend in Hin. split; [exact Hsend|].
  change (snd (Ok tt, [mpi_send (mk_MessageType true 0 [] []) dest tag]))
    with (mpi_send (mk_MessageType true 0 [] []) dest tag
            :: map (fun a => mpi_Send (arr_data a) dest tag) []) in Hin.
  rewrite pending_deliver in Hin.
  destruct (take_first_pending _ _ _ Hin) as (q1 & Ht1 & _).
  unfold recv, mpi_comm_recv. cbn [bind ret Monad_Py]. rewrite Ht1.
  split; reflexivity.
Qed.

Lemma empty_container_is_received_as_empty_tuple_witness :
  send (PyStr "") 1 7 [] = (Ok tt, [mpi_send (mk_MessageType true 0 [] []) 1 7]) /\
  fst (recv 0 7 empty_world) = Ok (PyTuple []) /\
  calls (snd (recv 0 7 empty_world)) = [mpi_recv 0 7].
Proof.
  apply (@empty_container_is_received_as_empty_tuple (PyStr "") 0 1 7 empty_world);
    reflexivity.
Defined.

(** When the descriptor cannot be built, [send] raises the exception of
    [_MessageType] and has made no call on [mpi_comm].  The exception is the
    [ValueError] of a payload that is neither an array nor iterable, the
    [TypeError] of [len] on an iterable without length (a generator), or the
    [AttributeError] of reading [ndim] of an element that is no array. *)
Theorem send_propagates_descriptor_error obj dest tag log e :
  MessageType_init obj = Raise e ->
  send obj dest tag log = (Raise e, log) /\
  ((isinstance_ndarray obj = false /\ isinstance_Iterable obj = false /\
    e = ValueError "Message object should be numpy array or tuple.")
   \/ (exists xs, obj = PyGenerator xs /\ e = TypeError "object has no len()")
   \/ (is_container obj = true /\ e = AttributeError "ndim")).
Proof.
  intros H. split.
  - unfold send. cbn. rewrite H. reflexivity.
  - revert H. unfold MessageType_init.
    destruct obj as [a|z| |s|l|l|l]; cbn.
    + discriminate.
    + intros H. injection H as <-. left. repeat split.
    + intros H. injection H as <-. left. repeat split.
    + destruct (comprehension getattr_ndim _) as [ds|e'] eqn:Hd.
      * destruct (comprehension_ndim_arrays _ Hd) as (arrays & -> & _).
        rewrite comprehension_shape_arrays. discriminate.
      * intros H. injection H as <-. right. right. split; [reflexivity|].
        revert Hd. apply comprehension_ndim_error.
    + destruct (comprehension getattr_ndim l) as [ds|e'] eqn:Hd.
      * destruct (comprehension_ndim_arrays _ Hd) as (arrays & -> & _).
        rewrite comprehension_shape_arrays. discriminate.
      * intros H. injection H as <-. right. right. split; [reflexivity|].
        revert Hd. apply comprehension_ndim_error.
    + destruct (comprehension getattr_ndim l) as [ds|e'] eqn:Hd.
      * destruct (comprehension_ndim_arrays _ Hd) as (arrays & -> & _).
        rewrite comprehension_shape_arrays. discriminate.
      * intros H. injection H as <-. right. right. split; [reflexivity|].
        revert Hd. apply comprehension_ndim_error.
    + intros H. injection H as <-. right. left. exists l. split; reflexivity.
Qed.

Lemma send_propagates_descriptor_error_witness :
  send (PyGenerator [PyArray vec3]) 1 7 [] = (Raise (TypeError "object has no len()"), []) /\
  send (PyList [PyArray vec3; PyNone]) 1 7 [] = (Raise (AttributeError "ndim"), []).
Proof.
  split.
  - apply (@send_propagates_descriptor_error (PyGenerator [PyArray vec3]) 1 7 []).
    reflexivity.
  - apply (@send_propagates_descriptor_error (PyList [PyArray vec3; PyNone]) 1 7 []).
    reflexivity.
Defined.

(** ** The transport calls of [recv] on every path *)

Lemma mpi_comm_recv_calls source tag w :
  calls (snd (mpi_comm_recv source tag w)) = calls w ++ [mpi_recv source tag].
Proof.
  unfold mpi_comm_recv.
  destruct (take_first source tag (inbox w)) as [[[m|bs] q]|]; reflexivity.
Qed.

Lemma recv_buffer_calls shape source tag w :
  exists new,
    calls (snd (recv_buffer shape source tag w)) = calls w ++ new /\
    Forall (bulk_from source tag) new /\ length new <= 1.
Proof.
  assert (Hnone : forall e,
            exists new,
              calls (snd (@raise world ndarray e w)) = calls w ++ new /\
              Forall (bulk_from source tag) new /\ length new <= 1).
  { intros e. exists []. rewrite app_nil_r. repeat split; [constructor | simpl; lia]. }
  destruct shape as [|d ds]; [apply Hnone|].
  unfold recv_buffer, numpy_prod, numpy_empty.
  set (z := int64_wrap _).
  destruct (z <? 0)%Z; [apply Hnone|].
  destruct (2 ^ 63 <=? Z.of_nat (itemsize float32) * z)%Z; [apply Hnone|].
  eexists [_].
  unfold mpi_comm_Recv, lift.
  cbn [bind ret Monad_Py inbox ram brk calls arr_data].
  split; [|split; [repeat constructor; eexists; reflexivity | simpl; lia]].
  destruct (take_first source tag (inbox w)) as [[[m|bs] q]|]; try reflexivity.
  destruct (length bs <=? _); reflexivity.
Qed.

Lemma recv_loop_calls source tag shapes :
  forall msg w,
    exists new,
      calls (snd (recv_loop shapes source tag msg w)) = calls w ++ new /\
      Forall (bulk_from source tag) new /\ length new <= length shapes.
Proof.
  induction shapes as [|shape shapes IH]; intros msg w.
  - exists []. rewrite app_nil_r. repeat split; [constructor | simpl; lia].
  - destruct (recv_buffer_calls shape source tag w) as (new1 & Hc1 & Hf1 & Hl1).
    cbn [recv_loop bind Monad_Py].
    destruct (recv_buffer shape source tag w) as [[a|e] w1]; cbn [snd] in Hc1.
    + destruct (IH (msg ++ [a]) w1) as (new2 & Hc2 & Hf2 & Hl2).
      exists (new1 ++ new2). rewrite Hc2, Hc1, <- app_assoc.
      repeat split; [apply Forall_app; split; assumption|].
      rewrite length_app. simpl. lia.
    + exists new1. cbn [snd]. repeat split; trivial. simpl. lia.
Qed.

(** Whatever the inbox holds and however [recv] ends, the calls it makes on
    [mpi_comm] are one [recv] for the header followed by calls of [Recv]
    only, every one with the source and the tag [recv] was given. *)
Theorem recv_calls_one_source_and_tag source tag w :
  exists new,
    calls (snd (recv source tag w)) = calls w ++ mpi_recv source tag :: new /\
    Forall (bulk_from source tag) new.
Proof.
  pose proof (mpi_comm_recv_calls source tag w) as Hh.
  unfold recv. cbn [bind Monad_Py].
  destruct (mpi_comm_recv source tag w) as [[m|e] w1]; cbn [snd] in Hh.
  - destruct (is_tuple m).
    + destruct (recv_loop_calls source tag (shapes m) [] w1) as (new & Hc & Hf & _).
      exists new. cbn [bind ret Monad_Py].
      destruct (recv_loop (shapes m) source tag [] w1) as [[msg|e] w2];
        cbn [snd] in *; rewrite Hc, Hh, <- app_assoc; split; trivial.
    + unfold py_assert, getitem, lift, raise. cbn [bind ret Monad_Py].
      destruct (length (shapes m) =? 1).
      * cbn [bind ret Monad_Py].
        destruct (nth_error (shapes m) 0) as [shape|].
        -- destruct (recv_buffer_calls shape source tag w1) as (new & Hc & Hf & _).
           exists new.
           destruct (recv_buffer shape source tag w1) as [[a|e] w2];
             cbn [snd] in *; rewrite Hc, Hh, <- app_assoc; split; trivial.
        -- exists []. cbn [snd]. rewrite Hh. split; [reflexivity | constructor].
      * exists []. cbn [snd]. rewrite Hh. split; [reflexivity | constructor].
  - exists []. cbn [snd]. rewrite Hh. split; [reflexivity | constructor].
Qed.

(** ** A declared shape without dimension *)

Lemma recv_loop_app source tag s1 s2 :
  forall msg w,
    recv_loop (s1 ++ s2) source tag msg w
    = match recv_loop s1 source tag msg w with
      | (Ok msg1, w1) => recv_loop s2 source tag msg1 w1
      | (Raise e, w1) => (Raise e, w1)
      end.
Proof.
  induction s1 as [|shape s1 IH]; intros msg w.
  - reflexivity.
  - cbn [app recv_loop bind Monad_Py].
    destruct (recv_buffer shape source tag w) as [[a|e] w1]; [apply IH | reflexivity].
Qed.

(** When the descriptor declares a shape without dimension, after shapes of
    at least one dimension and an addressable size whose bulk messages fit,
    [recv] receives the arrays declared before it, one [Recv] each, and then
    raises [TypeError] on allocating the buffer: no value is returned. *)
Theorem recv_raises_at_shape_without_dimension source tag w m pre post bufs rest :
  pending source tag (inbox w) = Pickled m :: map Buffer bufs ++ rest ->
  shapes m = pre ++ [] :: post ->
  (is_tuple m = false -> pre = [] /\ post = []) ->
  Forall receivable pre ->
  Forall2 (fun shape bs => length bs <= itemsize float32 * size_of_shape shape)
    pre bufs ->
  fst (recv source tag w)
  = Raise (TypeError "'numpy.float64' object cannot be interpreted as an integer") /\
  exists allocs,
    length allocs = length pre /\
    calls (snd (recv source tag w))
    = calls w ++ mpi_recv source tag
        :: map (fun alloc => mpi_Recv alloc source tag) allocs.
Proof.
  intros Hp Hsh Hsingle Hne Hfit.
  destruct (take_first_pending _ _ _ Hp) as (q1 & Ht & Hq1).
  set (w1 := mk_world q1 (ram w) (brk w) (calls w ++ [mpi_recv source tag])).
  assert (Hhdr : mpi_comm_recv source tag w = (Ok m, w1)).
  { unfold mpi_comm_recv. rewrite Ht. reflexivity. }
  unfold recv. cbn [bind Monad_Py]. rewrite Hhdr.
  destruct (is_tuple m) eqn:Htup.
  - destruct (@recv_loop_spec source tag pre bufs w1 [] rest Hne Hfit Hq1)
      as (allocs & w' & Hloop & Hlen & _ & Hcalls & _).
    cbn [bind ret Monad_Py]. rewrite Hsh, recv_loop_app, Hloop.
    cbn [recv_loop bind Monad_Py]. rewrite recv_buffer_scalar.
    split; [reflexivity|]. exists allocs. split.
    + symmetry. eapply Forall2_length. exact Hlen.
    + cbn [snd]. rewrite Hcalls. unfold w1. cbn [calls].
      rewrite <- app_assoc. reflexivity.
  - destruct (Hsingle eq_refl) as [-> ->]. rewrite Hsh.
    unfold py_assert, getitem, lift.
    cbn [app length Nat.eqb bind ret Monad_Py nth_error].
    rewrite recv_buffer_scalar. split; [reflexivity|].
    exists []. split; reflexivity.
Qed.

Lemma recv_raises_at_shape_without_dimension_witness :
  fst (recv 0 7 scalar_in_tuple_world)
  = Raise (TypeError "'numpy.float64' object cannot be interpreted as an integer") /\
  exists allocs,
    length allocs = 1 /\
    calls (snd (recv 0 7 scalar_in_tuple_world))
    = mpi_recv 0 7 :: map (fun alloc => mpi_Recv alloc 0 7) allocs.
Proof.
  apply (@recv_raises_at_shape_without_dimension 0 7 scalar_in_tuple_world
           (mk_MessageType true 2 [1; 0] [[1]; []]) [[1]] []
           [[x00; x00; x80; x3f]] [Buffer [x00; x00; x00; x40]]).
  - reflexivity.
  - reflexivity.
  - discriminate.
  - repeat constructor; try discriminate; reflexivity.
  - repeat constructor; simpl; lia.
Defined.

(** * Further properties of the communicators *)

Section CommunicatorLifecycle.

Context {X : Collaborators}.

(** [split] of a [CommunicatorBase] calls [Split] once and returns a new
    [CommunicatorBase] around the group [Split] computed, whose rank and size
    it reports.  A second [split], of the communicator returned, calls
    [Split] on that group: the two calls follow one another in the trace and
    the communicator split first is not changed. *)
Theorem split_of_split self color key color' key' t :
  let group := comm_Split (mpi_comm self) color key in
  let group' := comm_Split group color' key' in
  exists child t1,
    split (Base self) color key t = (Ok child, t1) /\
    child = Base (mk_CommunicatorBase group) /\
    rank child = comm_rank group /\ size child = comm_size group /\
    t1 = t ++ [call_Split (mpi_comm self) color key] /\
    split child color' key' t1
    = (Ok (Base (mk_CommunicatorBase group')),
       t ++ [call_Split (mpi_comm self) color key; call_Split group color' key']).
Proof.
  intros group group'. eexists _, _. split; [reflexivity|].
  repeat split. cbn. rewrite <- app_assoc. reflexivity.
Qed.

(** The first [_init_comms] after a construction that returned: it hands to
    [init_comms] the group and the numbers [my_ranks[1]], [my_ranks[2]] and
    [my_ranks[3]] that [init_ranks] gave, with [use_nccl], and stores the
    scopes it returns; [intra_nccl_comm] is stored when NCCL is in use and
    is not created otherwise. *)
Theorem init_comms_after_construction c u t self t1 r0 r1 r2 r3 r4 comms :
  init_ranks c = (r0, r1, r2, r3, r4) ->
  NodeAware_init c u t = (Ok self, t1) ->
  init_comms c r1 r2 r3 u = Ok comms ->
  (u = true -> exists v, comms2 comms = Some v) ->
  exists self',
    _init_comms (self, t1)
    = (Ok tt, (self', t ++ [call_init_ranks c; call_init_comms c r1 r2 r3 u])) /\
    intra_mpi_comm self' = Some (comms0 comms) /\
    inter_mpi_comm self' = Some (comms1 comms) /\
    intra_nccl_comm self' = (if u then Some (comms2 comms) else None).
Proof.
  intros Hr Hinit Hc H2.
  assert (Hself : self = mk_NodeAware (mk_CommunicatorBase c) u r1 r2 r3 r4 None None
                           (if u then Some None else None)
                  /\ t1 = t ++ [call_init_ranks c]).
  { revert Hinit. unfold NodeAware_init, log, py_assert, raise, CommunicatorBase_init.
    destruct (u && negb nccl_available); [discriminate|].
    cbn [bind ret Monad_Py mpi_comm]. rewrite Hr.
    destruct (r0 =? comm_rank c); [|discriminate].
    cbn [bind ret Monad_Py]. intros H. injection H as <- <-. split; reflexivity. }
  destruct Hself as [-> ->].
  unfold _init_comms, self_, external, assign.
  cbn [bind ret Monad_Py fst snd inter_mpi_comm is_not_None super mpi_comm
       intra_rank intra_size inter_rank use_nccl].
  rewrite Hc. cbn [bind ret Monad_Py fst snd].
  rewrite <- app_assoc. cbn [app].
  destruct u.
  - destruct (H2 eq_refl) as (v & Hv). rewrite Hv.
    eexists. split; [reflexivity|]. repeat split.
  - eexists. split; [reflexivity|]. repeat split.
Qed.

(** When [init_comms] raises, [_init_comms] raises the same exception and
    the object is as it was, without scopes: the next call asks
    [init_comms] again. *)
Theorem init_comms_failure_keeps_unbuilt self t e :
  inter_mpi_comm self = None ->
  init_comms (mpi_comm (super self)) (intra_rank self) (intra_size self)
    (inter_rank self) (use_nccl self) = Raise e ->
  _init_comms (self, t)
  = (Raise e,
     (self, t ++ [call_init_comms (mpi_comm (super self)) (intra_rank self)
                    (intra_size self) (inter_rank self) (use_nccl self)])).
Proof.
  intros Hinter Hc.
  unfold _init_comms, self_, external.
  cbn [bind ret Monad_Py fst snd]. rewrite Hinter. cbn [is_not_None].
  rewrite Hc. reflexivity.
Qed.

(** When NCCL is in use and [init_comms] returns a sequence without a third
    entry, [_init_comms] raises [IndexError] after it has stored the two
    process scopes; every later call then finds [inter_mpi_comm] set and
    [intra_nccl_comm] still [None], and fails its assertion. *)
Theorem init_comms_short_sequence self t comms :
  inter_mpi_comm self = None ->
  use_nccl self = true ->
  intra_nccl_comm self = Some None ->
  init_comms (mpi_comm (super self)) (intra_rank self) (intra_size self)
    (inter_rank self) (use_nccl self) = Ok comms ->
  comms2 comms = None ->
  exists self',
    fst (_init_comms (self, t)) = Raise IndexError /\
    fst (snd (_init_comms (self, t))) = self' /\
    intra_mpi_comm self' = Some (comms0 comms) /\
    inter_mpi_comm self' = Some (comms1 comms) /\
    forall t', _init_comms (self', t') = (Raise AssertionError, (self', t')).
Proof.
  intros Hinter Hu Hn Hc H2.
  eexists. split; [|split; [|split; [|split]]].
  - unfold _init_comms, self_, external, assign, raise.
    cbn [bind ret Monad_Py fst snd]. rewrite Hinter. cbn [is_not_None].
    rewrite Hc. cbn [bind ret Monad_Py fst snd]. rewrite Hu, H2. reflexivity.
  - unfold _init_comms, self_, external, assign, raise.
    cbn [bind ret Monad_Py fst snd]. rewrite Hinter. cbn [is_not_None].
    rewrite Hc. cbn [bind ret Monad_Py fst snd]. rewrite Hu, H2. reflexivity.
  - reflexivity.
  - reflexivity.
  - intros t'.
    unfold _init_comms, self_, py_assert, lift, get_intra_nccl_comm, raise.
    cbn [bind ret Monad_Py fst snd inter_mpi_comm intra_mpi_comm use_nccl
         intra_nccl_comm set_inter_mpi_comm set_intra_mpi_comm is_not_None].
    rewrite Hu, Hn. reflexivity.
Qed.

(** However [_init_comms] ends, it leaves the process group, [use_nccl] and
    the four rank numbers of the object as they were, and when NCCL is not in
    use it leaves [intra_nccl_comm] as it was. *)
Theorem init_comms_keeps_identity self t :
  let self' := fst (snd (_init_comms (self, t))) in
  super self' = super self /\
  use_nccl self' = use_nccl self /\
  intra_rank self' = intra_rank self /\
  intra_size self' = intra_size self /\
  inter_rank self' = inter_rank self /\
  inter_size self' = inter_size self /\
  (use_nccl self = false -> intra_nccl_comm self' = intra_nccl_comm self).
Proof.
  unfold _init_comms, self_, external, assign, py_assert, lift, raise,
    get_intra_nccl_comm.
  cbn [bind ret Monad_Py fst snd].
  destruct (inter_mpi_comm self) as [c|]; cbn [is_not_None].
  - destruct (intra_mpi_comm self) as [c'|];
      [destruct (use_nccl self) eqn:Hu;
         [destruct (intra_nccl_comm self) as [[v|]|] eqn:Hn | ] | ];
      cbn; repeat split; trivial; discriminate.
  - destruct (init_comms _ _ _ _ _) as [comms|e];
      [destruct (use_nccl self) eqn:Hu; [destruct (comms2 comms) as [v|] | ] | ];
      cbn; repeat split; trivial; discriminate.
Qed.

End CommunicatorLifecycle.

Lemma init_comms_after_construction_witness :
  exists self',
    @_init_comms (sample_collaborators true)
      (mk_NodeAware (X := sample_collaborators true)
         (mk_CommunicatorBase (X := sample_collaborators true) 0)
         true 0 2 0 2 None None (Some None),
       [call_init_ranks (X := sample_collaborators true) 0])
    = (Ok tt, (self', [call_init_ranks (X := sample_collaborators true) 0;
                       call_init_comms (X := sample_collaborators true) 0 0 2 0 true])) /\
    intra_mpi_comm self' = Some 10 /\
    inter_mpi_comm self' = Some 20 /\
    intra_nccl_comm self' = Some (Some 30).
Proof.
  apply (@init_comms_after_construction (sample_collaborators true)
           0 true [] _ _ 0 0 2 0 2 (mk_comms 10 20 (Some 30))).
  - reflexivity.
  - reflexivity.
  - reflexivity.
  - intros _. exists 30. reflexivity.
Defined.

Lemma init_comms_failure_keeps_unbuilt_witness :
  @_init_comms (collaborators_answering (Raise (MPIError "Split")))
    (mk_NodeAware (X := collaborators_answering (Raise (MPIError "Split")))
       (mk_CommunicatorBase (X := collaborators_answering (Raise (MPIError "Split"))) 0)
       false 0 2 0 2 None None None, [])
  = (Raise (MPIError "Split"),
     (mk_NodeAware (X := collaborators_answering (Raise (MPIError "Split")))
        (mk_CommunicatorBase (X := collaborators_answering (Raise (MPIError "Split"))) 0)
        false 0 2 0 2 None None None,
      [call_init_comms (X := collaborators_answering (Raise (MPIError "Split")))
         0 0 2 0 false])).
Proof.
  apply (@init_comms_failure_keeps_unbuilt
           (collaborators_answering (Raise (MPIError "Split")))
           (mk_NodeAware (X := collaborators_answering (Raise (MPIError "Split")))
              (mk_CommunicatorBase
                 (X := collaborators_answering (Raise (MPIError "Split"))) 0)
              false 0 2 0 2 None None None) []);
    reflexivity.
Defined.

Lemma init_comms_short_sequence_witness :
  exists self',
    fst (@_init_comms (collaborators_answering (Ok (mk_comms 10 20 None)))
           (mk_NodeAware (X := collaborators_answering (Ok (mk_comms 10 20 None)))
              (mk_CommunicatorBase
                 (X := collaborators_answering (Ok (mk_comms 10 20 None))) 0)
              true 0 2 0 2 None None (Some None), []))
    = Raise IndexError /\
    fst (snd (@_init_comms (collaborators_answering (Ok (mk_comms 10 20 None)))
           (mk_NodeAware (X := collaborators_answering (Ok (mk_comms 10 20 None)))
              (mk_CommunicatorBase
                 (X := collaborators_answering (Ok (mk_comms 10 20 None))) 0)
              true 0 2 0 2 None None (Some None), []))) = self' /\
    intra_mpi_comm self' = Some 10 /\
    inter_mpi_comm self' = Some 20 /\
    forall t', @_init_comms (collaborators_answering (Ok (mk_comms 10 20 None)))
                 (self', t') = (Raise AssertionError, (self', t')).
Proof.
  apply (@init_comms_short_sequence
           (collaborators_answering (Ok (mk_comms 10 20 None)))
           (mk_NodeAware (X := collaborators_answering (Ok (mk_comms 10 20 None)))
              (mk_CommunicatorBase
                 (X := collaborators_answering (Ok (mk_comms 10 20 None))) 0)
              true 0 2 0 2 None None (Some None)) [] (mk_comms 10 20 None));
    reflexivity.
Defined.
